(** * rubybot: the conversational agent, its tools and its knowledge store

    A shallow embedding of the Python sources

      - utiles/tts.py          (module [TTS])
      - utiles/stt.py          (module [STT])
      - utiles/rag_utiles.py   (module [RAG])
      - utiles/toolbox.py      (module [Toolbox])
      - utiles/ruby_tools.py   (module [Agent], the three agent tools)
      - ruby/ruby_mainframe.py (module [Agent], class Ruby)
      - frontend/app.py        (module [Agent], RubyWorker and the status
                                display)

    Python objects are records, attribute assignment is a record update,
    a method that can raise returns a [result], and a method that mutates
    the agent is a function of the state monad [M].  What lies outside the
    repository (the cloud speech clients, the language model, FAISS, the
    builtin [eval]) is never given a body: its outcome is an argument. *)

From Stdlib Require Import QArith Ascii String.
From stdpp Require Import base strings list gmap pretty.

Local Open Scope string_scope.
Local Open Scope list_scope.

(** ** Python values common to all modules *)

Module Py.

(** Exceptions, by class.  [ExternalError cls text] is an exception of a
    class derived from [Exception] raised inside a collaborator;
    [BaseError cls text] is one of a class that is not derived from
    [Exception] ([SystemExit], [KeyboardInterrupt], [GeneratorExit]);
    [text] is what [str(e)] gives. *)
Inductive exc : Type :=
| KeyError (key : string)
| IndexError (text : string)
| AttributeError (text : string)
| RuntimeError (text : string)
| TypeError (text : string)
| ValueError (text : string)
| ExternalError (cls text : string)
| BaseError (cls text : string).

(** [isinstance(e, Exception)] *)
Definition is_exception (e : exc) : bool :=
  match e with
  | BaseError _ _ => false
  | _ => true
  end.

(** The outcome of a call: a value, or a raised exception. *)
Inductive result (A : Type) : Type :=
| Ok (a : A)
| Raise (e : exc).
Arguments Ok {A} a.
Arguments Raise {A} e.

Definition is_ok {A} (r : result A) : bool :=
  match r with Ok _ => true | Raise _ => false end.

Definition rbind {A B} (r : result A) (k : A -> result B) : result B :=
  match r with Ok a => k a | Raise e => Raise e end.

Definition contains (c : ascii) (s : string) : bool :=
  existsb (Ascii.eqb c) (list_ascii_of_string s).

Definition hex_digit (n : N) : ascii :=
  match n with
  | 0 => "0" | 1 => "1" | 2 => "2" | 3 => "3" | 4 => "4" | 5 => "5"
  | 6 => "6" | 7 => "7" | 8 => "8" | 9 => "9" | 10 => "a" | 11 => "b"
  | 12 => "c" | 13 => "d" | 14 => "e" | _ => "f"
  end%N%char.

(** [repr] of one character of a [str], inside quotes [q]. *)
Definition repr_char (q c : ascii) : string :=
  let n := N_of_ascii c in
  if Ascii.eqb c q then String "\" (String c EmptyString)
  else if Ascii.eqb c "\"%char then "\\"
  else if (n =? 10)%N then "\n"
  else if (n =? 13)%N then "\r"
  else if (n =? 9)%N then "\t"
  else if ((n <? 32) || (n =? 127))%N
       then String "\" (String "x" (String (hex_digit (n / 16))
                                      (String (hex_digit (n mod 16)) EmptyString)))
  else String c EmptyString.

(** [repr(s)] for a [str] of ASCII characters: single quotes, unless the
    text has a single quote and no double quote. *)
Definition repr_ascii (s : string) : string :=
  let dq := ascii_of_N 34 in
  let q := if contains "'" s && negb (contains dq s) then dq else "'"%char in
  String q (String.concat EmptyString
              (map (repr_char q) (list_ascii_of_string s))
            +:+ String q EmptyString).

Definition is_ascii (s : string) : bool :=
  forallb (fun c => (N_of_ascii c <? 128)%N) (list_ascii_of_string s).

(** [repr(s)] for any [str].  Outside ASCII a character is escaped or
    kept according to the Unicode tables of the interpreter, which are
    not written out here: for such a text the answer is the
    interpreter's, [unicode_repr]. *)
Definition repr (unicode_repr : string -> string) (s : string) : string :=
  if is_ascii s then repr_ascii s else unicode_repr s.

(** [str(e)]: the message, and for a [KeyError] the [repr] of the key. *)
Definition str_exc (unicode_repr : string -> string) (e : exc) : string :=
  match e with
  | KeyError key => repr unicode_repr key
  | IndexError text | AttributeError text | RuntimeError text
  | TypeError text | ValueError text
  | ExternalError _ text | BaseError _ text => text
  end.

(** [d[key]] on a dict kept as an association list in insertion order. *)
Fixpoint dict_get {V} (d : list (string * V)) (key : string) : option V :=
  match d with
  | [] => None
  | (k, v) :: d' => if String.eqb k key then Some v else dict_get d' key
  end.

Definition dict_keys {V} (d : list (string * V)) : list string := map fst d.

(** [key in d] *)
Definition dict_mem {V} (d : list (string * V)) (key : string) : bool :=
  existsb (String.eqb key) (dict_keys d).

Definition subscript {V} (d : list (string * V)) (key : string) : result V :=
  match dict_get d key with
  | Some v => Ok v
  | None => Raise (KeyError key)
  end.

(** A truthy [str] is a non-empty one. *)
Definition truthy (s : string) : bool :=
  match s with EmptyString => false | String _ _ => true end.

(** *** Mutation and exceptions together

    A method body over an object of type [S]: it may assign attributes
    of the object and may raise.  The assignments made before a [raise]
    stay, as they do in Python. *)
Definition M (S A : Type) : Type := S -> result A * S.

Definition ret {S A} (a : A) : M S A := fun s => (Ok a, s).
Definition raise {S A} (e : exc) : M S A := fun s => (Raise e, s).
Definition bind {S A B} (m : M S A) (k : A -> M S B) : M S B :=
  fun s => match m s with
           | (Ok a, s') => k a s'
           | (Raise e, s') => (Raise e, s')
           end.
Definition get {S} : M S S := fun s => (Ok s, s).
Definition modify {S} (f : S -> S) : M S unit := fun s => (Ok tt, f s).
Definition lift {S A} (r : result A) : M S A := fun s => (r, s).

(** [try: body  except Exception as e: handler(e)]: an exception whose
    class is not derived from [Exception] is not caught. *)
Definition try_except {S A} (body : M S A) (handler : exc -> M S A) : M S A :=
  fun s => match body s with
           | (Ok a, s') => (Ok a, s')
           | (Raise e, s') =>
               if is_exception e then handler e s' else (Raise e, s')
           end.

(** A call whose value and whose exception both go to the caller's
    caller and are not seen here: only what it did to the object stays. *)
Definition settle {S A} (body : M S A) : M S unit :=
  fun s => (Ok tt, (body s).2).

(** Run a method of a sub-object stored in an attribute. *)
Definition zoom {S T A} (proj : S -> T) (inj : T -> S -> S) (m : M T A)
  : M S A :=
  fun s => let '(r, t) := m (proj s) in (r, inj t s).

End Py.
Import Py.

Declare Scope py_scope.
Delimit Scope py_scope with py.
Notation "x <- m ;; k" := (bind m (fun x => k))
  (at level 100, m at next level, right associativity) : py_scope.
Notation "m ;; k" := (bind m (fun _ => k))
  (at level 100, right associativity) : py_scope.
Local Open Scope py_scope.


(** ** utiles/tts.py: the synthesis collaborator *)

Module TTS.

Inductive SsmlVoiceGender := FEMALE.
Inductive AudioEncoding := MP3.

Record LanguageEntry := {
  voice_name : string;
  gender : SsmlVoiceGender;
  entry_speaking_rate : Q
}.

Record VoiceSelectionParams := {
  voice_language_code : string;
  name : string;
  ssml_gender : SsmlVoiceGender
}.

Record AudioConfig := {
  cfg_audio_encoding : AudioEncoding;
  cfg_sample_rate_hertz : Z;
  cfg_speaking_rate : Q
}.

(** [self.language_config], the same literal in every instance. *)
Definition language_config : list (string * LanguageEntry) :=
  [ ("en-IN", {| voice_name := "en-IN-Standard-D"; gender := FEMALE;
                 entry_speaking_rate := 0.75 |});
    ("ml-IN", {| voice_name := "ml-IN-Standard-A"; gender := FEMALE;
                 entry_speaking_rate := 0.75 |});
    ("ta-IN", {| voice_name := "ta-IN-Standard-A"; gender := FEMALE;
                 entry_speaking_rate := 0.75 |}) ].

Record RubyTTS := {
  language_code : string;
  audio_encoding : AudioEncoding;
  cache_dir : string;
  sample_rate_hertz : Z;
  speaking_rate : Q;
  voice : VoiceSelectionParams;
  audio_config : AudioConfig
}.

Definition set_language_code v (self : RubyTTS) : RubyTTS :=
  {| language_code := v; audio_encoding := audio_encoding self;
     cache_dir := cache_dir self; sample_rate_hertz := sample_rate_hertz self;
     speaking_rate := speaking_rate self; voice := voice self;
     audio_config := audio_config self |}.
Definition set_speaking_rate v (self : RubyTTS) : RubyTTS :=
  {| language_code := language_code self; audio_encoding := audio_encoding self;
     cache_dir := cache_dir self; sample_rate_hertz := sample_rate_hertz self;
     speaking_rate := v; voice := voice self;
     audio_config := audio_config self |}.
Definition set_voice v (self : RubyTTS) : RubyTTS :=
  {| language_code := language_code self; audio_encoding := audio_encoding self;
     cache_dir := cache_dir self; sample_rate_hertz := sample_rate_hertz self;
     speaking_rate := speaking_rate self; voice := v;
     audio_config := audio_config self |}.
Definition set_audio_config v (self : RubyTTS) : RubyTTS :=
  {| language_code := language_code self; audio_encoding := audio_encoding self;
     cache_dir := cache_dir self; sample_rate_hertz := sample_rate_hertz self;
     speaking_rate := speaking_rate self; voice := voice self;
     audio_config := v |}.

(** What the class asks of the outside world: building the cloud client,
    [os.makedirs(cache_dir, exist_ok=True)], and the synthesis, caching
    and playback of one non-empty text. *)
Record Externals := {
  TextToSpeechClient : result unit;
  makedirs : string -> result unit;
  synthesize_and_play : string -> result unit
}.

(** [texttospeech.AudioConfig(...)]: the sample rate is a 32-bit signed
    field of the message, and a value outside its range is refused. *)
Definition new_audio_config (audio_encoding : AudioEncoding)
    (sample_rate_hertz : Z) (speaking_rate : Q) : result AudioConfig :=
  if ((-2147483648 <=? sample_rate_hertz)
      && (sample_rate_hertz <=? 2147483647))%Z
  then Ok {| cfg_audio_encoding := audio_encoding;
             cfg_sample_rate_hertz := sample_rate_hertz;
             cfg_speaking_rate := speaking_rate |}
  else Raise (ValueError ("Value out of range: " +:+ pretty sample_rate_hertz)).

(** [RubyTTS.__init__], statement by statement.  A raise leaves no
    instance behind. *)
Definition __init__ (ext : Externals) (language : string)
    (audio_encoding : AudioEncoding) (sample_rate_hertz : Z)
    (cache_dir : string) (speaking_rate : option Q) : result RubyTTS :=
  rbind (TextToSpeechClient ext) (fun _ =>
  rbind (match speaking_rate with
         | Some r => Ok r
         | None => rbind (subscript language_config language)
                     (fun c => Ok (entry_speaking_rate c))
         end) (fun rate =>
  rbind (makedirs ext cache_dir) (fun _ =>
  rbind (subscript language_config language) (fun c1 =>
  rbind (subscript language_config language) (fun c2 =>
  rbind (new_audio_config audio_encoding sample_rate_hertz rate) (fun cfg =>
  Ok {| language_code := language;
        audio_encoding := audio_encoding;
        cache_dir := cache_dir;
        sample_rate_hertz := sample_rate_hertz;
        speaking_rate := rate;
        voice := {| voice_language_code := language;
                    name := voice_name c1;
                    ssml_gender := gender c2 |};
        audio_config := cfg |})))))).

(** [RubyTTS()] with every default argument. *)
Definition default (ext : Externals) : result RubyTTS :=
  __init__ ext "en-IN" MP3 24000 ".cache" None.

(** [RubyTTS.update_language]: an unsupported identifier is replaced by
    ['en-IN'] before anything is stored.  The audio configuration is
    built again from the sample rate the instance was built with, which
    the message accepted then. *)
Definition update_language (language : string) (speaking_rate : option Q)
  : M RubyTTS unit :=
  let language :=
    if negb (dict_mem language_config language) then "en-IN" else language in
  modify (set_language_code language) ;;
  rate <- match speaking_rate with
          | Some r => ret r
          | None => c <- lift (subscript language_config language) ;;
                    ret (entry_speaking_rate c)
          end ;;
  modify (set_speaking_rate rate) ;;
  c1 <- lift (subscript language_config language) ;;
  c2 <- lift (subscript language_config language) ;;
  self <- get ;;
  modify (set_voice {| voice_language_code := language_code self;
                       name := voice_name c1;
                       ssml_gender := gender c2 |}) ;;
  self <- get ;;
  modify (set_audio_config
            {| cfg_audio_encoding := audio_encoding self;
               cfg_sample_rate_hertz := sample_rate_hertz self;
               cfg_speaking_rate := TTS.speaking_rate self |}).

Definition get_current_language (self : RubyTTS) : string :=
  language_code self.

Definition get_supported_languages (self : RubyTTS) : list string :=
  dict_keys language_config.

(** [RubyTTS.text_to_speech]: a falsy text returns at once; anything
    else goes to the cloud and to the mixer. *)
Definition text_to_speech (ext : Externals) (text : string) : M RubyTTS unit :=
  if negb (truthy text) then ret tt
  else lift (synthesize_and_play ext text).

(** The outside world in which nothing fails. *)
Definition ext_ok : Externals :=
  {| TextToSpeechClient := Ok tt;
     makedirs := fun _ => Ok tt;
     synthesize_and_play := fun _ => Ok tt |}.

(** [RubyTTS.update_speaking_rate] *)
Definition update_speaking_rate (speaking_rate : Q) : M RubyTTS unit :=
  modify (set_speaking_rate speaking_rate) ;;
  self <- get ;;
  modify (set_audio_config
            {| cfg_audio_encoding := audio_encoding self;
               cfg_sample_rate_hertz := sample_rate_hertz self;
               cfg_speaking_rate := TTS.speaking_rate self |}).

End TTS.

(** ** utiles/stt.py: the capture collaborator *)

Module STT.

Record SpeechContext := { ctx_phrases : list string; boost : Z }.

Record RecognitionConfig := {
  rc_sample_rate_hertz : Z;
  rc_language_code : string;
  enable_automatic_punctuation : bool;
  rc_speech_contexts : option (list SpeechContext)
}.

Record StreamingRecognitionConfig := {
  config : RecognitionConfig;
  single_utterance : bool;
  interim_results : bool
}.

Record RubySTT := {
  phrases : option (list string);
  language_code : string;
  sample_rate : Z;
  chunk_size : Z;
  speech_contexts : option (list SpeechContext);
  recognition_config : RecognitionConfig;
  streaming_config : StreamingRecognitionConfig
}.

(** The outside world: building [speech.SpeechClient()] and one run of
    the streaming recognition behind [listen]. *)
Record Externals := {
  SpeechClient : result unit;
  streaming_recognize : result string
}.

Definition make_recognition_config (rate : Z) (language_code : string)
    (ctx : option (list SpeechContext)) : RecognitionConfig :=
  {| rc_sample_rate_hertz := rate;
     rc_language_code := language_code;
     enable_automatic_punctuation := true;
     rc_speech_contexts := ctx |}.

Definition make_streaming_config (rc : RecognitionConfig)
  : StreamingRecognitionConfig :=
  {| config := rc; single_utterance := false; interim_results := true |}.

(** [RubySTT.__init__] *)
Definition __init__ (ext : Externals) (language_code : string)
    (sample_rate chunk : Z) (phrases : option (list string))
    (phrases_boost : Z) : result RubySTT :=
  let ctx := match phrases with
             | Some (p :: ps) =>
                 Some [ {| ctx_phrases := p :: ps; boost := phrases_boost |} ]
             | _ => None
             end in
  let rc := make_recognition_config sample_rate language_code ctx in
  rbind (SpeechClient ext) (fun _ =>
  Ok {| phrases := phrases;
        language_code := language_code;
        sample_rate := sample_rate;
        chunk_size := chunk;
        speech_contexts := ctx;
        recognition_config := rc;
        streaming_config := make_streaming_config rc |}).

Definition default (ext : Externals) : result RubySTT :=
  __init__ ext "en-IN" 16000 100 None 20.

Definition set_language_code v (self : RubySTT) : RubySTT :=
  {| phrases := phrases self; language_code := v;
     sample_rate := sample_rate self; chunk_size := chunk_size self;
     speech_contexts := speech_contexts self;
     recognition_config := recognition_config self;
     streaming_config := streaming_config self |}.
Definition set_recognition_config v (self : RubySTT) : RubySTT :=
  {| phrases := phrases self; language_code := language_code self;
     sample_rate := sample_rate self; chunk_size := chunk_size self;
     speech_contexts := speech_contexts self;
     recognition_config := v;
     streaming_config := streaming_config self |}.
Definition set_streaming_config v (self : RubySTT) : RubySTT :=
  {| phrases := phrases self; language_code := language_code self;
     sample_rate := sample_rate self; chunk_size := chunk_size self;
     speech_contexts := speech_contexts self;
     recognition_config := recognition_config self;
     streaming_config := v |}.

(** [RubySTT.update_language]: the identifier is stored as given, there
    is no table to check it against; the client is built anew last. *)
Definition update_language (ext : Externals) (language_code : string)
  : M RubySTT unit :=
  modify (set_language_code language_code) ;;
  self <- get ;;
  modify (set_recognition_config
            (make_recognition_config (sample_rate self)
               (STT.language_code self) (speech_contexts self))) ;;
  self <- get ;;
  modify (set_streaming_config
            (make_streaming_config (recognition_config self))) ;;
  lift (SpeechClient ext).

(** [RubySTT.listen]: the final transcript of the stream, or [''] when
    the stream ends without one. *)
Definition listen (ext : Externals) : M RubySTT string :=
  lift (streaming_recognize ext).

Definition ext_ok (heard : string) : Externals :=
  {| SpeechClient := Ok tt; streaming_recognize := Ok heard |}.

(** *** The loop of [listen] over the responses of the stream *)

Record Alternative := { transcript : string }.
Record Result := { is_final : bool; alternatives : list Alternative }.
Record Response := { results : list Result }.

(** [for response in responses: ...] followed by [return ""]: a response
    without results is skipped, only [results[0]] is looked at, and the
    first one that is final ends the loop with
    [alternatives[0].transcript]. *)
Fixpoint listen_responses (responses : list Response) : result string :=
  match responses with
  | [] => Ok EmptyString
  | response :: rest =>
      match results response with
      | [] => listen_responses rest
      | r :: _ =>
          if is_final r then
            match alternatives r with
            | a :: _ => Ok (transcript a)
            | [] => Raise (IndexError "list index out of range")
            end
          else listen_responses rest
      end
  end.

(** The world in which the stream yields [responses]. *)
Definition ext_of_responses (responses : list Response) : Externals :=
  {| SpeechClient := Ok tt;
     streaming_recognize := listen_responses responses |}.

End STT.

(** ** utiles/rag_utiles.py: the knowledge store *)

Module RAG.

Record Document := { page_content : string; source : string }.

(** A FAISS store, seen from here as the chunks it holds in insertion
    order; the vectors are the embedding collaborator's business. *)
Abbreviation Index := (list Document).

(** Durable storage: the index that can be loaded from each location
    where [save_local] completed.  A folder that exists without a loadable
    index is not a state of this map. *)
Abbreviation Disk := (gmap string (list Document)).

Record RubyRAG := {
  db_path : string;
  embedding_model : string;
  chunk_size : Z;
  chunk_overlap : Z;
  vectorstore : option Index
}.

Definition set_vectorstore v (self : RubyRAG) : RubyRAG :=
  {| db_path := db_path self; embedding_model := embedding_model self;
     chunk_size := chunk_size self; chunk_overlap := chunk_overlap self;
     vectorstore := v |}.

(** The libraries behind the class.  Each field is the outcome of the
    call of that name; [file_ext] is
    [os.path.splitext(file_path)[-1].lower()].  [save_local_fault vs path
    disk] says whether writing [vs] at [path] fails: [None] when the write
    completes, and otherwise the exception together with what the failed
    write leaves on the disk.  [unicode_repr] is the interpreter's [repr]
    of a text that is not ASCII. *)
Record Externals := {
  OpenAIEmbeddings : string -> result unit;
  RecursiveCharacterTextSplitter : Z -> Z -> result unit;
  file_ext : string -> string;
  PyPDFLoader_load : string -> result (list Document);
  TextLoader_load : string -> result (list Document);
  split_documents : Z -> Z -> list Document -> list Document;
  FAISS_from_documents : list Document -> result Index;
  FAISS_add_documents : Index -> list Document -> result unit * Index;
  similarity_search : Index -> string -> nat -> result (list Document);
  save_local_fault : Index -> string -> Disk -> option (exc * Disk);
  unicode_repr : string -> string
}.

Section Store.
Variable ext : Externals.

(** [os.path.exists(db_path)] *)
Definition exists_ (disk : Disk) (path : string) : bool :=
  match disk !! path with Some _ => true | None => false end.

(** [FAISS.load_local(db_path, ...)] *)
Definition load_local (disk : Disk) (path : string) : result Index :=
  match disk !! path with
  | Some vs => Ok vs
  | None => Raise (RuntimeError ("could not open " +:+ path))
  end.

(** What a completed [vectorstore.save_local(db_path)] leaves. *)
Definition save_local (vs : Index) (path : string) (disk : Disk) : Disk :=
  <[path := vs]> disk.

(** [vectorstore.save_local(db_path)], which may fail. *)
Definition try_save_local (vs : Index) (path : string) : M Disk unit :=
  fun disk =>
    match save_local_fault ext vs path disk with
    | None => (Ok tt, save_local vs path disk)
    | Some (e, left_behind) => (Raise e, left_behind)
    end.

(** [RubyRAG.__init__]: the persisted store is loaded when there is
    one at [db_path]; otherwise [vectorstore] stays [None]. *)
Definition __init__ (disk : Disk) (db_path embedding_model : string)
    (chunk_size chunk_overlap : Z) : result RubyRAG :=
  rbind (OpenAIEmbeddings ext embedding_model) (fun _ =>
  rbind (RecursiveCharacterTextSplitter ext chunk_size chunk_overlap)
    (fun _ =>
  let self := {| db_path := db_path; embedding_model := embedding_model;
                 chunk_size := chunk_size; chunk_overlap := chunk_overlap;
                 vectorstore := None |} in
  if exists_ disk db_path then
    rbind (load_local disk db_path) (fun vs =>
    Ok (set_vectorstore (Some vs) self))
  else Ok self)).

(** [RubyRAG(db_path=...)], the other arguments at their defaults. *)
Definition open_at (disk : Disk) (db_path : string) : result RubyRAG :=
  __init__ disk db_path "text-embedding-3-small" 600 80.

(** [RubyRAG()] *)
Definition default (disk : Disk) : result RubyRAG :=
  open_at disk "ruby_rag/db".

(** [RubyRAG._load_documents] *)
Definition _load_documents (self : RubyRAG) (file_path : string)
  : result (list Document) :=
  let e := file_ext ext file_path in
  rbind (if String.eqb e ".pdf"
         then PyPDFLoader_load ext file_path
         else TextLoader_load ext file_path) (fun docs =>
  Ok (split_documents ext (chunk_size self) (chunk_overlap self) docs)).

(** [RubyRAG.add_documents], over the instance and the disk. *)
Definition add_documents (file_path : string) : M (RubyRAG * Disk) unit :=
  st <- get ;;
  docs <- lift (_load_documents st.1 file_path) ;;
  match vectorstore st.1 with
  | None =>
      vs <- lift (FAISS_from_documents ext docs) ;;
      modify (prod_map (set_vectorstore (Some vs)) id)
  | Some vs =>
      fun s => let '(r, vs') := FAISS_add_documents ext vs docs in
               (r, prod_map (set_vectorstore (Some vs')) id s)
  end ;;
  st <- get ;;
  match vectorstore st.1 with
  | Some vs => zoom snd (fun disk s => (s.1, disk))
                 (try_save_local vs (db_path st.1))
  | None => raise (AttributeError
                     "'NoneType' object has no attribute 'save_local'")
  end.

Definition nl : string := String (ascii_of_N 10) EmptyString.

(** ["\n\n---\n\n".join(pieces)] *)
Definition join_context (pieces : list string) : string :=
  String.concat (nl +:+ nl +:+ "---" +:+ nl +:+ nl) pieces.

(** One labelled section, [i] counted from 1. *)
Definition context_piece (i : nat) (doc : Document) : string :=
  "[Context " +:+ pretty (S i) +:+ "]" +:+ nl +:+ page_content doc.

(** [RubyRAG.query] *)
Definition query (self : RubyRAG) (q : string) (k : nat) : result string :=
  match vectorstore self with
  | None => Raise (RuntimeError "No existing DB found.")
  | Some vs =>
      rbind (similarity_search ext vs q k) (fun docs =>
      Ok (join_context (imap context_piece docs)))
  end.

(** Ingest the files one after the other, the way a caller that goes
    on after a failed ingestion would; the outcomes are collected. *)
Fixpoint ingest (files : list string) (st : RubyRAG * Disk)
  : list (result unit) * (RubyRAG * Disk) :=
  match files with
  | [] => ([], st)
  | f :: files' =>
      let '(r, st') := add_documents f st in
      let '(rs, st'') := ingest files' st' in
      (r :: rs, st'')
  end.

End Store.

(** A stand-in for the libraries, in which nothing fails: a file holds
    its own path as text, splitting keeps the documents whole, and the
    search gives the first [k] chunks of the store. *)
Definition ext_plain : Externals :=
  {| OpenAIEmbeddings := fun _ => Ok tt;
     RecursiveCharacterTextSplitter := fun _ _ => Ok tt;
     file_ext := fun _ => ".txt";
     PyPDFLoader_load := fun p => Ok [ {| page_content := p; source := p |} ];
     TextLoader_load := fun p => Ok [ {| page_content := p; source := p |} ];
     split_documents := fun _ _ docs => docs;
     FAISS_from_documents := fun docs => Ok docs;
     FAISS_add_documents := fun vs docs => (Ok tt, vs ++ docs);
     similarity_search := fun vs _ k => Ok (take k vs);
     save_local_fault := fun _ _ _ => None;
     unicode_repr := repr_ascii |}.

End RAG.

(** ** utiles/toolbox.py: the stateless tools *)

Module Toolbox.

(** What [eval] can hand back: only its [str] matters to the tool.  For
    an object other than an [int] or a [str], [shown] is what its own
    [__str__] does. *)
Inductive PyValue :=
| VInt (n : Z)
| VStr (s : string)
| VObject (shown : result string).

(** [str(v)]: an [int] of more than 4300 decimal digits is refused. *)
Definition str (v : PyValue) : result string :=
  match v with
  | VInt n =>
      if (4300 <? String.length (pretty (Z.abs n)))%nat
      then Raise (ValueError
                    ("Exceeds the limit (4300 digits) for integer string "
                     +:+ "conversion; use sys.set_int_max_str_digits() to "
                     +:+ "increase the limit"))
      else Ok (pretty n)
  | VStr s => Ok s
  | VObject shown => shown
  end.

Section Calculator.
(** The process the tool runs in, and the builtin [eval] acting on it. *)
Context {World : Type}.
Variable eval : string -> M World PyValue.
Variable unicode_repr : string -> string.

(** [calculator]: the query goes to [eval] as it is. *)
Definition calculator (query : string) : M World string :=
  try_except (v <- eval query ;; lift (str v))
             (fun e => ret (str_exc unicode_repr e)).
End Calculator.

(** The names bound in the module [utiles.rag_utiles] once it is
    imported. *)
Inductive ModuleAttr := ClassRubyRAG | ImportedName.

Definition rag_utiles : list (string * ModuleAttr) :=
  [ ("os", ImportedName); ("load_dotenv", ImportedName);
    ("List", ImportedName); ("Optional", ImportedName);
    ("OpenAIEmbeddings", ImportedName); ("FAISS", ImportedName);
    ("PyPDFLoader", ImportedName); ("TextLoader", ImportedName);
    ("RecursiveCharacterTextSplitter", ImportedName);
    ("Document", ImportedName); ("RubyRAG", ClassRubyRAG) ].

(** [rag_utiles.<attr>] *)
Definition getattr (attr : string) : result ModuleAttr :=
  match dict_get rag_utiles attr with
  | Some a => Ok a
  | None => Raise (AttributeError
              ("module 'utiles.rag_utiles' has no attribute '"
               +:+ attr +:+ "'"))
  end.

Section QueryDocument.
Variable ext : RAG.Externals.

(** [rag_utiles.<attr>().query(query)]; only the class can be
    instantiated and queried. *)
Definition instantiate_and_query (a : ModuleAttr) (disk : RAG.Disk)
    (query : string) : result string :=
  match a with
  | ClassRubyRAG =>
      rbind (RAG.default ext disk) (fun rag => RAG.query ext rag query 3)
  | ImportedName => Raise (TypeError "object is not callable")
  end.

(** [query_document]: the attribute looked up is [RobiRAG]. *)
Definition query_document (disk : RAG.Disk) (query : string) : string :=
  match rbind (getattr "RobiRAG")
              (fun a => instantiate_and_query a disk query) with
  | Ok text => text
  | Raise e => str_exc (RAG.unicode_repr ext) e
  end.

(** What the docstring and the knowledge store offer: the same body
    with the class under the name it is defined by. *)
Definition query_document_intended (disk : RAG.Disk) (query : string)
  : string :=
  match rbind (getattr "RubyRAG")
              (fun a => instantiate_and_query a disk query) with
  | Ok text => text
  | Raise e => str_exc (RAG.unicode_repr ext) e
  end.
End QueryDocument.

(** *** The builtin [eval] on literals

    What Python gives for the two simplest kinds of source text: a
    single-quoted string of printable ASCII characters without quote or
    backslash, and a decimal integer.  [None] stands for every other
    source text, about which nothing is said here. *)

Definition plain_char (c : ascii) : bool :=
  let n := N_of_ascii c in
  ((32 <=? n) && (n <=? 126) && negb (n =? 39) && negb (n =? 92))%N.

Definition is_digit (c : ascii) : bool :=
  let n := N_of_ascii c in ((48 <=? n) && (n <=? 57))%N.

Definition digits_value (cs : list ascii) : Z :=
  fold_left (fun acc c => (10 * acc + Z.of_N (N_of_ascii c - 48))%Z) cs 0%Z.

Definition eval_literal (source : string) : option PyValue :=
  match list_ascii_of_string source with
  | [] => None
  | c :: rest =>
      if Ascii.eqb c "'"%char then
        match last rest with
        | Some q =>
            if Ascii.eqb q "'"%char
               && forallb plain_char (removelast rest)
            then Some (VStr (string_of_list_ascii (removelast rest)))
            else None
        | None => None
        end
      else if forallb is_digit (c :: rest)
              && (negb (Ascii.eqb c "0"%char)
                  || match rest with [] => true | _ :: _ => false end)
              && Nat.ltb (length rest) 4300
      then Some (VInt (digits_value (c :: rest)))
      else None
  end.

(** An evaluator that knows literals and nothing else.  The builtin
    agrees with it on every literal and goes far beyond it elsewhere. *)
Definition eval_literals_only (source : string) : M unit PyValue :=
  match eval_literal source with
  | Some v => ret v
  | None => raise (ExternalError "SyntaxError" "invalid syntax")
  end.


(** *** The serial bridge *)




End Toolbox.

(** ** ruby/ruby_mainframe.py, utiles/ruby_tools.py, frontend/app.py *)

Module Agent.

Inductive Message :=
| SystemMessage (text : string)
| HumanMessage (text : string)
| AIMessage (text : string)
| ToolMessage (text : string).

(** [message.content] *)
Definition content (m : Message) : string :=
  match m with
  | SystemMessage t | HumanMessage t | AIMessage t | ToolMessage t => t
  end.

(** The attributes of a [Ruby] instance.  [ruby_state] is the string the
    display polls; [chat_history] is the list under ["messages"]. *)
Record Ruby := {
  model_name : string;
  ruby_state : string;
  system_prompt : string;
  tts : TTS.RubyTTS;
  stt : STT.RubySTT;
  chat_history : list Message;
  current_video_process : option string
}.

(** What crosses the boundary of the agent, in the order it happens:
    calls into the collaborators, and lines printed by the mainframe and
    the worker. *)
Inductive Call :=
| CallListen
| CallInvoke (history : list Message)
| CallTextToSpeech (text : string)
| CallTtsUpdateLanguage (language : string)
| CallSttUpdateLanguage (language : string)
| CallTtsStop
| CallExtractInfo (query : string)
| CallPlayer (stream_url : string)
| Print (line : string).

Record Sys := { ruby : Ruby; calls : list Call }.

Definition history (s : Sys) : list Message := chat_history (ruby s).
Definition phase (s : Sys) : string := ruby_state (ruby s).

Definition set_ruby_state (v : string) (s : Sys) : Sys :=
  {| ruby := {| model_name := model_name (ruby s); ruby_state := v;
                system_prompt := system_prompt (ruby s);
                tts := tts (ruby s); stt := stt (ruby s);
                chat_history := chat_history (ruby s);
                current_video_process := current_video_process (ruby s) |};
     calls := calls s |}.

Definition set_tts (v : TTS.RubyTTS) (s : Sys) : Sys :=
  {| ruby := {| model_name := model_name (ruby s);
                ruby_state := ruby_state (ruby s);
                system_prompt := system_prompt (ruby s);
                tts := v; stt := stt (ruby s);
                chat_history := chat_history (ruby s);
                current_video_process := current_video_process (ruby s) |};
     calls := calls s |}.

Definition set_stt (v : STT.RubySTT) (s : Sys) : Sys :=
  {| ruby := {| model_name := model_name (ruby s);
                ruby_state := ruby_state (ruby s);
                system_prompt := system_prompt (ruby s);
                tts := tts (ruby s); stt := v;
                chat_history := chat_history (ruby s);
                current_video_process := current_video_process (ruby s) |};
     calls := calls s |}.

Definition set_chat_history (v : list Message) (s : Sys) : Sys :=
  {| ruby := {| model_name := model_name (ruby s);
                ruby_state := ruby_state (ruby s);
                system_prompt := system_prompt (ruby s);
                tts := tts (ruby s); stt := stt (ruby s);
                chat_history := v;
                current_video_process := current_video_process (ruby s) |};
     calls := calls s |}.

Definition set_current_video_process (v : option string) (s : Sys) : Sys :=
  {| ruby := {| model_name := model_name (ruby s);
                ruby_state := ruby_state (ruby s);
                system_prompt := system_prompt (ruby s);
                tts := tts (ruby s); stt := stt (ruby s);
                chat_history := chat_history (ruby s);
                current_video_process := v |};
     calls := calls s |}.

Definition record (c : Call) : M Sys unit :=
  modify (fun s => {| ruby := ruby s; calls := calls s ++ [c] |}).

(** [self.chat_history["messages"].append(m)] *)
Definition append_message (m : Message) : M Sys unit :=
  modify (fun s => set_chat_history (history s ++ [m]) s).

Definition on_tts {A} (m : M TTS.RubyTTS A) : M Sys A :=
  zoom (fun s => tts (ruby s)) set_tts m.
Definition on_stt {A} (m : M STT.RubySTT A) : M Sys A :=
  zoom (fun s => stt (ruby s)) set_stt m.

(** *** utiles/ruby_tools.py *)

(** [SwitchLanguageTool._run] *)
Definition SwitchLanguageTool_run (stt_ext : STT.Externals) (language : string)
  : M Sys string :=
  modify (set_ruby_state "switching_language") ;;
  record (CallTtsUpdateLanguage language) ;;
  on_tts (TTS.update_language language None) ;;
  record (CallSttUpdateLanguage language) ;;
  on_stt (STT.update_language stt_ext language) ;;
  modify (set_ruby_state "idle") ;;
  ret ("Switched to " +:+ language).

(** [GetAvailableLanguagesTool._run] *)
Definition GetAvailableLanguagesTool_run : M Sys (list string) :=
  s <- get ;;
  ret (TTS.get_supported_languages (tts (ruby s))).

(** What the video tool meets outside: the search, giving the title and
    the URL of the first entry, and the start of the player process. *)
Record VideoExternals := {
  extract_info : string -> result (string * string);
  player : string -> result unit
}.

(** [YouTubeVideoPlayerTool._run] *)
Definition YouTubeVideoPlayerTool_run (vext : VideoExternals) (query : string)
  : M Sys string :=
  modify (set_ruby_state "Searching Video") ;;
  record (CallExtractInfo query) ;;
  video <- lift (extract_info vext query) ;;
  record (CallPlayer video.2) ;;
  lift (player vext video.2) ;;
  modify (set_current_video_process (Some video.2)) ;;
  modify (set_current_video_process None) ;;
  modify (set_ruby_state "Playing Video") ;;
  ret ("Finished playing: " +:+ video.1).

(** *** ruby/ruby_mainframe.py *)

(** One request of the agent for a tool, with the outside world that
    tool will meet.  The three tools of utiles/toolbox.py do not touch the
    [Ruby] instance. *)
Inductive ToolCall :=
| youtube_video_player (query : string) (vext : VideoExternals)
| get_available_languages
| switch_language (language : string) (stt_ext : STT.Externals)
| toolbox_tool (tool_name query : string).

(** The world around one pass of the loop: what the microphone stream
    yields, what synthesis does, and the run of the language model, given
    by the tools it asks for, in order, and by what [invoke] finally
    gives: [response["messages"]], or an exception, which may be one a
    tool raised, such as the [SystemExit] of an evaluated [exit()].
    [py_unicode_repr] is the interpreter's [repr] of a text that is not
    ASCII. *)
Record CycleEnv := {
  stt_ext : STT.Externals;
  tts_ext : TTS.Externals;
  tool_calls : list ToolCall;
  reply : result (list Message);
  py_unicode_repr : string -> string
}.

(** The agent runs one tool.  The text it gets back, or the exception,
    goes to the agent: what becomes of it is told by [reply]. *)
Definition run_tool (t : ToolCall) : M Sys unit :=
  match t with
  | youtube_video_player query vext =>
      settle (YouTubeVideoPlayerTool_run vext query)
  | get_available_languages => settle GetAvailableLanguagesTool_run
  | switch_language language stt_ext =>
      settle (SwitchLanguageTool_run stt_ext language)
  | toolbox_tool _ _ => ret tt
  end.

Fixpoint run_tools (ts : list ToolCall) : M Sys unit :=
  match ts with
  | [] => ret tt
  | t :: ts' => run_tool t ;; run_tools ts'
  end.

(** [self.model.invoke(self.chat_history)] *)
Definition invoke (env : CycleEnv) : M Sys (list Message) :=
  s <- get ;;
  record (CallInvoke (history s)) ;;
  run_tools (tool_calls env) ;;
  lift (reply env).

(** [messages[-1]] *)
Definition last_message (messages : list Message) : result Message :=
  match last messages with
  | Some m => Ok m
  | None => Raise (IndexError "list index out of range")
  end.

(** [Ruby.speak] *)
Definition speak (env : CycleEnv) (user_input : string) : M Sys string :=
  modify (set_ruby_state "Thinking") ;;
  append_message (HumanMessage user_input) ;;
  response <- invoke env ;;
  m <- lift (last_message response) ;;
  append_message m ;;
  modify (set_ruby_state "Speaking") ;;
  record (CallTextToSpeech (content m)) ;;
  on_tts (TTS.text_to_speech (tts_ext env) (content m)) ;;
  modify (set_ruby_state "idel") ;;
  ret (content m).

(** [Ruby.listen] *)
Definition listen (env : CycleEnv) : M Sys string :=
  modify (set_ruby_state "Listening") ;;
  record CallListen ;;
  transcript <- on_stt (STT.listen (stt_ext env)) ;;
  record (Print ("User: " +:+ transcript)) ;;
  ret transcript.


(** The body of the [while True] of [Ruby.run]. *)
Definition run_iteration (env : CycleEnv) : M Sys string :=
  user_input <- listen env ;;
  speak env user_input.


(** [Ruby.__init__]; [tts] and [stt] are the optional arguments, built
    with their defaults when absent; [create_agent] is the last call. *)
Definition __init__ (tts_ext : TTS.Externals) (stt_ext : STT.Externals)
    (create_agent : result unit)
    (tts : option TTS.RubyTTS) (model system_prompt : string)
    (stt : option STT.RubySTT) : result Ruby :=
  rbind (match tts with Some t => Ok t | None => TTS.default tts_ext end)
    (fun tts =>
  rbind (match stt with Some t => Ok t | None => STT.default stt_ext end)
    (fun stt =>
  rbind create_agent (fun _ =>
  Ok {| model_name := model; ruby_state := "idel";
        system_prompt := system_prompt; tts := tts; stt := stt;
        chat_history := [SystemMessage system_prompt];
        current_video_process := None |}))).

(** *** frontend/app.py *)

(** The body of the [while self.running] of [RubyWorker.run]; the
    [time.sleep(1)] of the handler changes nothing here. *)
Definition worker_iteration (env : CycleEnv) : M Sys unit :=
  try_except
    (user_input <- listen env ;;
     if truthy user_input then speak env user_input ;; ret tt else ret tt)
    (fun e => record (Print ("Ruby error: "
                             +:+ str_exc (py_unicode_repr env) e))).


(** The label the display shows for a value of [ruby_state]. *)
Definition status_text (ruby_state : string) : string :=
  if String.eqb ruby_state "Listening" then "Listening..."
  else if String.eqb ruby_state "Speaking" then "Speaking..."
  else if String.eqb ruby_state "Thinking" then "Thinking..."
  else if String.eqb ruby_state "Playing Video" then "Playing Video..."
  else if String.eqb ruby_state "Searching Video" then "Searching Video..."
  else "Idle".

(** The handler of a mouse click in the display. *)
Definition on_mouse_button_down : M Sys unit :=
  s <- get ;;
  if String.eqb (phase s) "Speaking"
  then record (Print "🛑 Stopping TTS") ;;
       record CallTtsStop ;;
       modify (set_ruby_state "Idel")
  else ret tt.

(** A world in which every collaborator answers: the microphone hears
    [heard] and the model answers [answer] without any tool. *)
Definition env_ok (heard answer : string) : CycleEnv :=
  {| stt_ext := STT.ext_ok heard; tts_ext := TTS.ext_ok;
     tool_calls := []; reply := Ok [AIMessage answer];
     py_unicode_repr := repr_ascii |}.

(** [Ruby(system_prompt=prompt)] in a world where construction succeeds,
    with nothing logged yet. *)
Definition boot (prompt : string) : result Sys :=
  rbind (__init__ TTS.ext_ok (STT.ext_ok EmptyString) (Ok tt)
           None "gpt-4o" prompt None)
        (fun r => Ok {| ruby := r; calls := [] |}).

End Agent.

(** * Vocabulary of the properties *)

Import Agent.

(** What the microphone stream yields in [env]. *)
Definition heard (env : CycleEnv) : result string :=
  STT.streaming_recognize (stt_ext env).

















(** A store is in step with the disk when its [vectorstore] is what the
    disk holds at its [db_path]. *)
Definition in_step (st : RAG.RubyRAG * RAG.Disk) : Prop :=
  RAG.vectorstore st.1 = st.2 !! RAG.db_path st.1.

(** A synthesis instance whose derived attributes agree with its
    primary ones, and whose active identifier is a key of the table. *)
Definition tts_consistent (self : TTS.RubyTTS) : Prop :=
  TTS.language_code self ∈ dict_keys TTS.language_config
  /\ TTS.voice_language_code (TTS.voice self) = TTS.language_code self
  /\ (exists c, dict_get TTS.language_config (TTS.language_code self) = Some c
                /\ TTS.name (TTS.voice self) = TTS.voice_name c
                /\ TTS.ssml_gender (TTS.voice self) = TTS.gender c)
  /\ TTS.cfg_speaking_rate (TTS.audio_config self) = TTS.speaking_rate self
  /\ TTS.cfg_sample_rate_hertz (TTS.audio_config self)
     = TTS.sample_rate_hertz self
  /\ TTS.cfg_audio_encoding (TTS.audio_config self) = TTS.audio_encoding self.




(** A response that does not end the loop of [listen]. *)
Definition not_final (response : STT.Response) : bool :=
  match STT.results response with
  | [] => true
  | r :: _ => negb (STT.is_final r)
  end.

(** A capture side whose client cannot be built. *)
Definition stt_client_down : STT.Externals :=
  {| STT.SpeechClient :=
       Raise (ExternalError "DefaultCredentialsError" "no credentials");
     STT.streaming_recognize := Ok EmptyString |}.

(** A search that finds one video and a player that starts; a search
    that finds nothing. *)
Definition video_found (title url : string) : VideoExternals :=
  {| extract_info := fun _ => Ok (title, url); player := fun _ => Ok tt |}.

Definition video_missing : VideoExternals :=
  {| extract_info := fun _ => Raise (IndexError "list index out of range");
     player := fun _ => Ok tt |}.



(** A stream of two interim responses and a final one, with more after
    it; and a stream that ends without a final result, although the
    second result of one response is marked final. *)
Definition stream_with_final : list STT.Response :=
  [ {| STT.results := [] |};
    {| STT.results := [ {| STT.is_final := false;
                           STT.alternatives :=
                             [ {| STT.transcript := "what is" |} ] |} ] |};
    {| STT.results := [ {| STT.is_final := true;
                           STT.alternatives :=
                             [ {| STT.transcript := "what is gravity" |};
                               {| STT.transcript := "what is cavity" |} ] |} ] |};
    {| STT.results := [ {| STT.is_final := true;
                           STT.alternatives :=
                             [ {| STT.transcript := "never reached" |} ] |} ] |} ].

Definition stream_without_final : list STT.Response :=
  [ {| STT.results := [] |};
    {| STT.results := [ {| STT.is_final := false;
                           STT.alternatives :=
                             [ {| STT.transcript := "what" |} ] |};
                        {| STT.is_final := true;
                           STT.alternatives :=
                             [ {| STT.transcript := "second result" |} ] |} ] |} ].



(** * Properties *)

Ltac is_member := repeat constructor.
Ltac is_no_member :=
  let H := fresh in
  intros H;
  repeat (apply elem_of_cons in H as [H|H]; [discriminate H|]);
  by apply elem_of_nil in H.


(** ** Dictionaries *)

Lemma dict_get_None {V} (d : list (string * V)) key :
  key ∉ dict_keys d -> dict_get d key = None.
Proof.
  induction d as [|[k v] d IH]; simpl; [done|].
  intros Hn. destruct (String.eqb_spec k key) as [->|Hk].
  - exfalso. apply Hn. left.
  - apply IH. intros Hin. apply Hn. by right.
Qed.

Lemma dict_get_Some {V} (d : list (string * V)) key :
  key ∈ dict_keys d -> exists v, dict_get d key = Some v.
Proof.
  induction d as [|[k v] d IH]; simpl.
  - intros H. by apply elem_of_nil in H.
  - intros Hin. destruct (String.eqb_spec k key) as [->|Hk]; [eauto|].
    apply elem_of_cons in Hin as [->|Hin]; [done|]. by apply IH.
Qed.

(** ** The synthesis collaborator *)

Lemma tts_config_keys :
  dict_keys TTS.language_config = ["en-IN"; "ml-IN"; "ta-IN"].
Proof. reflexivity. Qed.

Lemma tts_supported_cases (language : string) :
  language ∈ dict_keys TTS.language_config ->
  language = "en-IN" \/ language = "ml-IN" \/ language = "ta-IN".
Proof.
  rewrite tts_config_keys. rewrite !elem_of_cons, elem_of_nil. tauto.
Qed.

Lemma tts_unsupported_mem (language : string) :
  language ∉ dict_keys TTS.language_config ->
  dict_mem TTS.language_config language = false.
Proof.
  unfold dict_mem. induction (dict_keys TTS.language_config) as [|k ks IH];
    simpl; [done|].
  intros H. destruct (String.eqb_spec language k) as [->|Hk].
  - exfalso. apply H. left.
  - apply IH. intros Hin. apply H. by right.
Qed.

(** [update_language] with an identifier of the table stores it. *)
Lemma tts_update_supported (language : string) (self : TTS.RubyTTS) :
  language ∈ dict_keys TTS.language_config ->
  exists self',
    TTS.update_language language None self = (Ok tt, self')
    /\ TTS.get_current_language self' = language.
Proof.
  intros H. destruct (tts_supported_cases _ H) as [->|[->| ->]];
    eexists; split; reflexivity.
Qed.

(** [update_language] with any other identifier stores ['en-IN']. *)
Lemma tts_update_unsupported (language : string) (self : TTS.RubyTTS) :
  language ∉ dict_keys TTS.language_config ->
  exists self',
    TTS.update_language language None self = (Ok tt, self')
    /\ TTS.get_current_language self' = "en-IN".
Proof.
  intros H. unfold TTS.update_language.
  rewrite (tts_unsupported_mem _ H). eexists; split; reflexivity.
Qed.


(** C10. Constructing the synthesis collaborator with an identifier
    outside {en-IN, ml-IN, ta-IN} never yields an instance, whatever the
    outside world does, whatever the other arguments are and whether or
    not a speaking rate is passed; when the client and the cache directory
    are available the exception is the [KeyError] of the lookup in the
    language configuration, and no default identifier is substituted.
    With an identifier of the set, and a sample rate that the audio
    configuration accepts (a 32-bit signed value, such as the default
    24000), construction succeeds and the instance carries that
    identifier; a sample rate outside that range is refused whatever the
    identifier.  The later [update_language], by contrast, does not raise
    and stores ['en-IN'] for an identifier outside the set. *)
Theorem tts_init_rejects_unsupported_language :
  forall (language : string) aenc hz dir (rate : option Q),
    (language ∉ ["en-IN"; "ml-IN"; "ta-IN"] ->
       (forall ext, is_ok (TTS.__init__ ext language aenc hz dir rate) = false)
       /\ TTS.__init__ TTS.ext_ok language aenc hz dir rate
          = Raise (KeyError language)
       /\ forall self, exists self',
            TTS.update_language language None self = (Ok tt, self')
            /\ TTS.get_current_language self' = "en-IN")
    /\ (language ∈ ["en-IN"; "ml-IN"; "ta-IN"] ->
        (-2147483648 <= hz <= 2147483647)%Z ->
        exists self,
          TTS.__init__ TTS.ext_ok language aenc hz dir rate = Ok self
          /\ TTS.get_current_language self = language
          /\ TTS.sample_rate_hertz self = hz)
    /\ (~ (-2147483648 <= hz <= 2147483647)%Z ->
        forall ext, is_ok (TTS.__init__ ext language aenc hz dir rate) = false).
Proof.
  intros language aenc hz dir rate. split; [|split].
  - intros Hn.
    assert (Hget : dict_get TTS.language_config language = None)
      by (apply dict_get_None; by rewrite tts_config_keys).
    split; [|split].
    + intros ext. unfold TTS.__init__, subscript. rewrite Hget.
      destruct (TTS.TextToSpeechClient ext); simpl; [|done].
      destruct rate; simpl; [|done].
      destruct (TTS.makedirs ext dir); done.
    + unfold TTS.__init__, subscript. rewrite Hget. by destruct rate.
    + intros self. apply tts_update_unsupported. by rewrite tts_config_keys.
  - intros Hin Hhz.
    destruct (dict_get_Some TTS.language_config language) as [c Hc];
      [by rewrite tts_config_keys|].
    assert (Hrange : ((-2147483648 <=? hz) && (hz <=? 2147483647))%Z = true)
      by (apply andb_true_intro; split; apply Z.leb_le; lia).
    unfold TTS.__init__, TTS.new_audio_config, subscript.
    rewrite Hc, Hrange. simpl.
    destruct rate; simpl; eauto.
  - intros Hhz ext.
    assert (Hrange : ((-2147483648 <=? hz) && (hz <=? 2147483647))%Z = false).
    { apply andb_false_iff.
      destruct (Z.leb_spec (-2147483648) hz); [|by left].
      destruct (Z.leb_spec hz 2147483647); [|by right]. lia. }
    unfold TTS.__init__, TTS.new_audio_config, subscript. rewrite Hrange.
    generalize (dict_get TTS.language_config language). intros g.
    destruct (TTS.TextToSpeechClient ext) as [[]|]; destruct g; destruct rate;
      destruct (TTS.makedirs ext dir) as [[]|]; reflexivity.
Qed.

Lemma tts_init_rejects_unsupported_language_witness :
  (("fr-FR" ∉ ["en-IN"; "ml-IN"; "ta-IN"])
   /\ TTS.__init__ TTS.ext_ok "fr-FR" TTS.MP3 24000 ".cache" None
      = Raise (KeyError "fr-FR"))
  /\ (("ta-IN" ∈ ["en-IN"; "ml-IN"; "ta-IN"])
      /\ (-2147483648 <= 24000 <= 2147483647)%Z
      /\ exists self,
           TTS.__init__ TTS.ext_ok "ta-IN" TTS.MP3 24000 ".cache" None = Ok self
           /\ TTS.get_current_language self = "ta-IN")
  /\ (~ (-2147483648 <= 2147483648 <= 2147483647)%Z
      /\ is_ok (TTS.__init__ TTS.ext_ok "ta-IN" TTS.MP3 2147483648 ".cache"
                  None) = false).
Proof.
  assert (Hn : "fr-FR" ∉ ["en-IN"; "ml-IN"; "ta-IN"])
    by is_no_member.
  assert (Hi : "ta-IN" ∈ ["en-IN"; "ml-IN"; "ta-IN"])
    by is_member.
  assert (Hr : (-2147483648 <= 24000 <= 2147483647)%Z) by lia.
  assert (Hb : ~ (-2147483648 <= 2147483648 <= 2147483647)%Z) by lia.
  destruct (tts_init_rejects_unsupported_language
              "fr-FR" TTS.MP3 24000 ".cache" None) as [Hbad _].
  destruct (tts_init_rejects_unsupported_language
              "ta-IN" TTS.MP3 24000 ".cache" None) as (_ & Hgood & _).
  destruct (tts_init_rejects_unsupported_language
              "ta-IN" TTS.MP3 2147483648 ".cache" None) as (_ & _ & Hbig).
  split; [|split].
  - split; [exact Hn|]. exact (proj1 (proj2 (Hbad Hn))).
  - split; [exact Hi|]. split; [exact Hr|].
    destruct (Hgood Hi Hr) as (self & Hinit & Hlang & _). eauto.
  - split; [exact Hb|]. exact (Hbig Hb TTS.ext_ok).
Defined.

(** ** The switch-language tool *)

(** The tool, once the synthesis side has taken its step: the rest is
    decided by the client the capture side builds. *)
Lemma switch_run_unfold stt_ext language s tts' :
  TTS.update_language language None (tts (ruby s)) = (Ok tt, tts') ->
  STT.SpeechClient stt_ext = Ok tt ->
  exists s',
    SwitchLanguageTool_run stt_ext language s
      = (Ok ("Switched to " +:+ language), s')
    /\ calls s' = calls s ++ [CallTtsUpdateLanguage language;
                              CallSttUpdateLanguage language]
    /\ tts (ruby s') = tts'
    /\ STT.language_code (stt (ruby s')) = language
    /\ STT.rc_language_code (STT.recognition_config (stt (ruby s'))) = language
    /\ phase s' = "idle"
    /\ history s' = history s.
Proof.
  intros Htts Hcl.
  unfold SwitchLanguageTool_run, on_tts, on_stt, STT.update_language,
    zoom, bind, modify, record, get, lift, ret.
  cbn -[TTS.update_language]. rewrite Htts.
  cbn. rewrite Hcl. cbn.
  eexists. split; [reflexivity|]. cbn.
  rewrite <- app_assoc. done.
Qed.

(** C7, as the code has it. For every registered identifier, a switch
    whose capture client can be rebuilt reports "Switched to <id>", calls
    the synthesis collaborator's language update first and the capture
    collaborator's second, and leaves both active identifiers (and the
    capture collaborator's recognition configuration) equal to the
    requested one, the phase at "idle" and the history untouched. *)
Theorem switch_language_registered :
  forall (language : string) (stt_ext : STT.Externals) (s : Sys),
    language ∈ TTS.get_supported_languages (tts (ruby s)) ->
    STT.SpeechClient stt_ext = Ok tt ->
    exists s',
      SwitchLanguageTool_run stt_ext language s
        = (Ok ("Switched to " +:+ language), s')
      /\ calls s' = calls s ++ [CallTtsUpdateLanguage language;
                                CallSttUpdateLanguage language]
      /\ TTS.get_current_language (tts (ruby s')) = language
      /\ STT.language_code (stt (ruby s')) = language
      /\ STT.rc_language_code (STT.recognition_config (stt (ruby s')))
         = language
      /\ phase s' = "idle"
      /\ history s' = history s.
Proof.
  intros language stt_ext s Hin Hcl.
  destruct (tts_update_supported language (tts (ruby s)) Hin)
    as (tts' & Hupd & Hlang).
  destruct (switch_run_unfold stt_ext language s tts' Hupd Hcl)
    as (s' & Hrun & Hcalls & Htts & Hrest).
  exists s'. rewrite Htts. tauto.
Qed.

Lemma switch_language_registered_witness :
  exists s0,
    boot "You are Ruby." = Ok s0
    /\ ("ta-IN" ∈ TTS.get_supported_languages (tts (ruby s0)))
    /\ exists s',
         SwitchLanguageTool_run (STT.ext_ok EmptyString) "ta-IN" s0
         = (Ok "Switched to ta-IN", s')
         /\ calls s' = [CallTtsUpdateLanguage "ta-IN";
                        CallSttUpdateLanguage "ta-IN"]
         /\ TTS.get_current_language (tts (ruby s')) = "ta-IN"
         /\ STT.language_code (stt (ruby s')) = "ta-IN".
Proof.
  eexists. split; [vm_compute; reflexivity|].
  assert (Hin : "ta-IN" ∈ ["en-IN"; "ml-IN"; "ta-IN"]) by is_member.
  split; [exact Hin|].
  match goal with
  | |- exists s', SwitchLanguageTool_run _ _ ?s = _ /\ _ =>
      destruct (switch_language_registered "ta-IN" (STT.ext_ok EmptyString)
                  s Hin eq_refl)
        as (s' & Hrun & Hcalls & Ht & Hs & _)
  end.
  exists s'. repeat split; assumption.
Defined.

(** C7, as stated, fails: the first collaborator called is synthesis, not
    capture. *)
Lemma switch_language_order_counterexample :
  exists s0 s',
    boot "You are Ruby." = Ok s0
    /\ SwitchLanguageTool_run (STT.ext_ok EmptyString) "ml-IN" s0
       = (Ok "Switched to ml-IN", s')
    /\ calls s' = [CallTtsUpdateLanguage "ml-IN"; CallSttUpdateLanguage "ml-IN"]
    /\ calls s' <> [CallSttUpdateLanguage "ml-IN"; CallTtsUpdateLanguage "ml-IN"].
Proof.
  eexists. eexists. split; [vm_compute; reflexivity|].
  split; [vm_compute; reflexivity|].
  split; [vm_compute; reflexivity|]. vm_compute. discriminate.
Qed.

(** C1, as the code has it. For every identifier outside the registered
    set, a switch whose capture client can be rebuilt does not fail: it
    reports "Switched to <id>", the synthesis collaborator's active
    identifier becomes the default "en-IN", the capture collaborator's
    becomes the requested identifier as given, and the phase ends at
    "idle". *)
Theorem switch_language_unregistered :
  forall (language : string) (stt_ext : STT.Externals) (s : Sys),
    language ∉ TTS.get_supported_languages (tts (ruby s)) ->
    STT.SpeechClient stt_ext = Ok tt ->
    exists s',
      SwitchLanguageTool_run stt_ext language s
        = (Ok ("Switched to " +:+ language), s')
      /\ TTS.get_current_language (tts (ruby s')) = "en-IN"
      /\ STT.language_code (stt (ruby s')) = language
      /\ phase s' = "idle".
Proof.
  intros language stt_ext s Hn Hcl.
  destruct (tts_update_unsupported language (tts (ruby s)) Hn)
    as (tts' & Hupd & Hlang).
  destruct (switch_run_unfold stt_ext language s tts' Hupd Hcl)
    as (s' & Hrun & Hcalls & Htts & Hrest).
  exists s'. rewrite Htts. tauto.
Qed.

Lemma switch_language_unregistered_witness :
  exists s0,
    boot "You are Ruby." = Ok s0
    /\ ("fr-FR" ∉ TTS.get_supported_languages (tts (ruby s0)))
    /\ exists s',
         SwitchLanguageTool_run (STT.ext_ok EmptyString) "fr-FR" s0
         = (Ok "Switched to fr-FR", s')
         /\ TTS.get_current_language (tts (ruby s')) = "en-IN"
         /\ STT.language_code (stt (ruby s')) = "fr-FR".
Proof.
  eexists. split; [vm_compute; reflexivity|].
  assert (Hn : "fr-FR" ∉ ["en-IN"; "ml-IN"; "ta-IN"]) by is_no_member.
  split; [exact Hn|].
  match goal with
  | |- exists s', SwitchLanguageTool_run _ _ ?s = _ /\ _ =>
      destruct (switch_language_unregistered "fr-FR" (STT.ext_ok EmptyString)
                  s Hn eq_refl)
        as (s' & Hrun & Ht & Hs & _)
  end.
  exists s'. repeat split; assumption.
Defined.

(** C1, as stated, fails: after a switch to "ml-IN", a switch to the
    unregistered "fr-FR" raises nothing, reports success, and both active
    identifiers have changed, the synthesis one to the default. *)
Lemma switch_language_unregistered_counterexample :
  exists s0 s1 s2,
    boot "You are Ruby." = Ok s0
    /\ SwitchLanguageTool_run (STT.ext_ok EmptyString) "ml-IN" s0
       = (Ok "Switched to ml-IN", s1)
    /\ TTS.get_current_language (tts (ruby s1)) = "ml-IN"
    /\ STT.language_code (stt (ruby s1)) = "ml-IN"
    /\ ("fr-FR" ∉ TTS.get_supported_languages (tts (ruby s1)))
    /\ SwitchLanguageTool_run (STT.ext_ok EmptyString) "fr-FR" s1
       = (Ok "Switched to fr-FR", s2)
    /\ TTS.get_current_language (tts (ruby s2)) = "en-IN"
    /\ STT.language_code (stt (ruby s2)) = "fr-FR".
Proof.
  do 3 eexists. split; [vm_compute; reflexivity|].
  split; [vm_compute; reflexivity|].
  split; [vm_compute; reflexivity|]. split; [vm_compute; reflexivity|].
  split; [change ("fr-FR" ∉ ["en-IN"; "ml-IN"; "ta-IN"]); is_no_member|].
  split; [vm_compute; reflexivity|]. split; vm_compute; reflexivity.
Qed.

(** ** One pass of the loop *)

Lemma bind_ok {S A B} (m : M S A) (k : A -> M S B) s a s' :
  m s = (Ok a, s') -> bind m k s = k a s'.
Proof. intros H. unfold bind. by rewrite H. Qed.











(** [listen]: the phase is "Listening" from the first statement on. *)
Lemma listen_ok env s text :
  heard env = Ok text ->
  exists s',
    listen env s = (Ok text, s')
    /\ history s' = history s
    /\ phase s' = "Listening"
    /\ calls s' = calls s ++ [CallListen; Print ("User: " +:+ text)].
Proof.
  unfold heard. intros H.
  unfold listen, on_stt, STT.listen, zoom, bind, modify, record, lift, ret.
  cbn. rewrite H. cbn. eexists. split; [reflexivity|]. cbn.
  by rewrite <- app_assoc.
Qed.





(** ** The worker's pass, case by case *)



Lemma worker_silence env s text :
  heard env = Ok text -> truthy text = false ->
  exists s',
    worker_iteration env s = (Ok tt, s')
    /\ history s' = history s
    /\ phase s' = "Listening"
    /\ calls s' = calls s ++ [CallListen; Print ("User: " +:+ text)].
Proof.
  intros H Ht. destruct (listen_ok env s text H) as (s1 & Hl & Hh & Hp & Hc).
  unfold worker_iteration, try_except.
  rewrite (bind_ok _ _ s text s1 Hl), Ht. cbn. eauto.
Qed.







(** ** The cycle: history and phase *)




(** The console loop has no guard on the empty text: [speak] runs, the
    model is called, and two turns are appended. *)
Lemma run_iteration_empty_capture :
  exists s0 s',
    boot "You are Ruby." = Ok s0
    /\ run_iteration (env_ok EmptyString "Hello?") s0 = (Ok "Hello?", s')
    /\ history s' = [SystemMessage "You are Ruby."; HumanMessage EmptyString;
                     AIMessage "Hello?"]
    /\ CallInvoke [SystemMessage "You are Ruby."; HumanMessage EmptyString]
       ∈ calls s'.
Proof.
  do 2 eexists. split; [vm_compute; reflexivity|].
  split; [vm_compute; reflexivity|]. split; [reflexivity|].
  vm_compute. is_member.
Qed.








(** ** The knowledge store *)

Section StoreProperties.
Variable ext : RAG.Externals.

Lemma init_fields disk path em cs co self :
  RAG.__init__ ext disk path em cs co = Ok self ->
  RAG.db_path self = path
  /\ RAG.vectorstore self = disk !! path
  /\ RAG.OpenAIEmbeddings ext em = Ok tt
  /\ RAG.RecursiveCharacterTextSplitter ext cs co = Ok tt.
Proof.
  unfold RAG.__init__, RAG.exists_, RAG.load_local.
  destruct (RAG.OpenAIEmbeddings ext em) as [[]|e]; simpl; [|done].
  destruct (RAG.RecursiveCharacterTextSplitter ext cs co) as [[]|e];
    simpl; [|done].
  destruct (disk !! path) as [vs|]; simpl; intros [= <-]; done.
Qed.

(** A successful ingestion ends with the store saved as it stands. *)
Lemma add_documents_ok file st disk st' disk' :
  RAG.add_documents ext file (st, disk) = (Ok tt, (st', disk')) ->
  RAG.db_path st' = RAG.db_path st
  /\ exists vs, RAG.vectorstore st' = Some vs
                /\ disk' = <[RAG.db_path st := vs]> disk.
Proof.
  unfold RAG.add_documents, RAG.try_save_local, RAG.save_local, zoom,
    bind, get, lift, modify, raise. cbn.
  destruct (RAG._load_documents ext st file) as [docs|e]; [|done].
  destruct (RAG.vectorstore st) as [vs|] eqn:Hvs.
  - destruct (RAG.FAISS_add_documents ext vs docs) as [[[]|e] vs']; cbn;
      [|done].
    destruct (RAG.save_local_fault ext vs' (RAG.db_path st) disk)
      as [[e left_behind]|]; cbn; [done|].
    intros [= <- <-]. cbn. eauto.
  - cbn. destruct (RAG.FAISS_from_documents ext docs) as [vs|e]; cbn; [|done].
    destruct (RAG.save_local_fault ext vs (RAG.db_path st) disk)
      as [[e left_behind]|]; cbn; [done|].
    intros [= <- <-]. cbn. eauto.
Qed.

Lemma add_documents_in_step file st st' :
  RAG.add_documents ext file st = (Ok tt, st') ->
  RAG.db_path st'.1 = RAG.db_path st.1 /\ in_step st'.
Proof.
  destruct st as [st disk], st' as [st' disk']. intros H.
  destruct (add_documents_ok _ _ _ _ _ H) as (Hp & vs & Hvs & ->).
  split; [done|]. unfold in_step. cbn. rewrite Hvs, Hp.
  by rewrite lookup_insert_eq.
Qed.

Lemma ingest_in_step files : forall st rs st',
  RAG.ingest ext files st = (rs, st') ->
  Forall (fun r => is_ok r = true) rs ->
  in_step st ->
  RAG.db_path st'.1 = RAG.db_path st.1 /\ in_step st'.
Proof.
  induction files as [|f files IH]; intros st rs st'; simpl.
  - intros [= <- <-]. done.
  - destruct (RAG.add_documents ext f st) as [r st1] eqn:Hadd.
    destruct (RAG.ingest ext files st1) as [rs' st2] eqn:Hing.
    intros [= <- <-] Hall Hstep.
    apply Forall_cons in Hall as [Hr Hall].
    destruct r as [[]|e]; [|done].
    destruct (add_documents_in_step f st st1 Hadd) as [Hp1 Hs1].
    destruct (IH st1 rs' st2 Hing Hall Hs1) as [Hp2 Hs2].
    split; [congruence|done].
Qed.

Lemma query_depends_on_vectorstore a b q k :
  RAG.vectorstore a = RAG.vectorstore b ->
  RAG.query ext a q k = RAG.query ext b q k.
Proof. unfold RAG.query. by intros ->. Qed.

End StoreProperties.

(** C6. A store built at a location where nothing is persisted, and into
    which nothing has been ingested, answers every query by raising the
    error "No existing DB found."; it does not return the empty string, nor
    any string at all. *)
Theorem query_without_index_raises :
  forall (ext : RAG.Externals) (disk : RAG.Disk)
         (db_path embedding_model : string) (chunk_size chunk_overlap : Z)
         (self : RAG.RubyRAG) (q : string) (k : nat),
    disk !! db_path = None ->
    RAG.__init__ ext disk db_path embedding_model chunk_size chunk_overlap
      = Ok self ->
    RAG.query ext self q k = Raise (RuntimeError "No existing DB found.")
    /\ RAG.query ext self q k <> Ok EmptyString.
Proof.
  intros ext disk path em cs co self q k Hnone Hinit.
  destruct (init_fields ext disk path em cs co self Hinit) as (_ & Hvs & _).
  unfold RAG.query. rewrite Hvs, Hnone. done.
Qed.

Lemma query_without_index_raises_witness :
  exists self,
    RAG.open_at RAG.ext_plain ∅ "non_existent_db" = Ok self
    /\ RAG.query RAG.ext_plain self "Hello?" 3
       = Raise (RuntimeError "No existing DB found.").
Proof.
  eexists. split; [reflexivity|].
  match goal with
  | |- RAG.query _ ?self _ _ = _ =>
      exact (proj1 (query_without_index_raises RAG.ext_plain ∅
                      "non_existent_db" "text-embedding-3-small" 600 80
                      self "Hello?" 3 (lookup_empty _) eq_refl))
  end.
Defined.

(** C9. Build a store at a location, ingest any sequence of files, each
    ingestion returning normally, and then build a fresh store at the same
    location from what is on the disk: the fresh store can be built, and
    for every query text and every result count it answers exactly as the
    original store does. *)
Theorem persist_reload_round_trip :
  forall (ext : RAG.Externals) (disk0 disk : RAG.Disk)
         (db_path embedding_model : string) (chunk_size chunk_overlap : Z)
         (files : list string) (st0 st : RAG.RubyRAG)
         (outcomes : list (result unit)),
    RAG.__init__ ext disk0 db_path embedding_model chunk_size chunk_overlap
      = Ok st0 ->
    RAG.ingest ext files (st0, disk0) = (outcomes, (st, disk)) ->
    Forall (fun r => is_ok r = true) outcomes ->
    exists fresh,
      RAG.__init__ ext disk db_path embedding_model chunk_size chunk_overlap
        = Ok fresh
      /\ forall (q : string) (k : nat),
           RAG.query ext fresh q k = RAG.query ext st q k.
Proof.
  intros ext disk0 disk path em cs co files st0 st outcomes Hinit Hing Hall.
  destruct (init_fields ext disk0 path em cs co st0 Hinit)
    as (Hp0 & Hvs0 & Hemb & Hsplit).
  assert (Hstep0 : in_step (st0, disk0)).
  { unfold in_step. cbn. by rewrite Hp0. }
  destruct (ingest_in_step ext files (st0, disk0) outcomes (st, disk)
              Hing Hall Hstep0) as [Hp Hstep].
  unfold in_step in Hstep. cbn in Hp, Hstep. rewrite Hp, Hp0 in Hstep.
  unfold RAG.__init__, RAG.exists_, RAG.load_local.
  rewrite Hemb, Hsplit. simpl.
  destruct (disk !! path) as [vs|] eqn:Hdisk.
  - simpl. eexists. split; [reflexivity|]. intros q k.
    apply query_depends_on_vectorstore. by rewrite Hstep.
  - eexists. split; [reflexivity|]. intros q k.
    apply query_depends_on_vectorstore. by rewrite Hstep.
Qed.

Lemma persist_reload_round_trip_witness :
  exists st0 st disk fresh,
    RAG.open_at RAG.ext_plain ∅ "test_rag_db" = Ok st0
    /\ RAG.ingest RAG.ext_plain ["a.txt"; "b.txt"] (st0, ∅)
       = ([Ok tt; Ok tt], (st, disk))
    /\ RAG.open_at RAG.ext_plain disk "test_rag_db" = Ok fresh
    /\ RAG.query RAG.ext_plain fresh "What is Ruby?" 3
       = RAG.query RAG.ext_plain st "What is Ruby?" 3.
Proof.
  do 3 eexists.
  assert (Hinit : RAG.__init__ RAG.ext_plain ∅ "test_rag_db"
                    "text-embedding-3-small" 600 80
                  = Ok {| RAG.db_path := "test_rag_db";
                          RAG.embedding_model := "text-embedding-3-small";
                          RAG.chunk_size := 600; RAG.chunk_overlap := 80;
                          RAG.vectorstore := None |}) by reflexivity.
  assert (Hing : RAG.ingest RAG.ext_plain ["a.txt"; "b.txt"]
                   ({| RAG.db_path := "test_rag_db";
                       RAG.embedding_model := "text-embedding-3-small";
                       RAG.chunk_size := 600; RAG.chunk_overlap := 80;
                       RAG.vectorstore := None |}, ∅)
                 = ([Ok tt; Ok tt],
                    (RAG.set_vectorstore
                       (Some [ {| RAG.page_content := "a.txt";
                                  RAG.source := "a.txt" |};
                               {| RAG.page_content := "b.txt";
                                  RAG.source := "b.txt" |} ])
                       {| RAG.db_path := "test_rag_db";
                          RAG.embedding_model := "text-embedding-3-small";
                          RAG.chunk_size := 600; RAG.chunk_overlap := 80;
                          RAG.vectorstore := None |},
                     <["test_rag_db" :=
                         [ {| RAG.page_content := "a.txt";
                              RAG.source := "a.txt" |};
                           {| RAG.page_content := "b.txt";
                              RAG.source := "b.txt" |} ]]>
                       (<["test_rag_db" :=
                            [ {| RAG.page_content := "a.txt";
                                 RAG.source := "a.txt" |} ]]> ∅))))
    by reflexivity.
  destruct (persist_reload_round_trip RAG.ext_plain ∅ _ "test_rag_db"
              "text-embedding-3-small" 600 80 _ _ _ _ Hinit Hing)
    as (fresh & Hfresh & Hq).
  { repeat constructor. }
  exists fresh. split; [exact Hinit|]. split; [exact Hing|].
  split; [exact Hfresh|]. apply Hq.
Defined.

(** ** The stateless tools *)

(** The module [utiles.rag_utiles] binds no name [RobiRAG]. *)
Lemma rag_utiles_has_no_RobiRAG :
  Toolbox.getattr "RobiRAG"
  = Raise (AttributeError
             "module 'utiles.rag_utiles' has no attribute 'RobiRAG'").
Proof. reflexivity. Qed.

(** C5, on the code. Whatever the query, whatever the libraries do and
    whatever is on the disk, [query_document] returns the text of the
    attribute error: the lookup of [RobiRAG] fails before any store is
    built, so the knowledge store's query operation is never reached.
    With an index on the disk, the same body with the class under its
    defined name [RubyRAG] returns the store's context block. *)
Theorem query_document_never_reaches_store :
  (forall (ext : RAG.Externals) (disk : RAG.Disk) (query : string),
      Toolbox.query_document ext disk query
      = "module 'utiles.rag_utiles' has no attribute 'RobiRAG'")
  /\ Toolbox.query_document RAG.ext_plain
       (<["ruby_rag/db" := [ {| RAG.page_content := "Ruby supports Tamil.";
                                RAG.source := "info.txt" |} ]]> ∅)
       "What languages does Ruby support?"
     <> Toolbox.query_document_intended RAG.ext_plain
          (<["ruby_rag/db" := [ {| RAG.page_content := "Ruby supports Tamil.";
                                   RAG.source := "info.txt" |} ]]> ∅)
          "What languages does Ruby support?"
  /\ Toolbox.query_document_intended RAG.ext_plain
       (<["ruby_rag/db" := [ {| RAG.page_content := "Ruby supports Tamil.";
                                RAG.source := "info.txt" |} ]]> ∅)
       "What languages does Ruby support?"
     = "[Context 1]" +:+ RAG.nl +:+ "Ruby supports Tamil.".
Proof.
  split; [|split].
  - intros ext disk query. unfold Toolbox.query_document.
    by rewrite rag_utiles_has_no_RobiRAG.
  - vm_compute. discriminate.
  - vm_compute. reflexivity.
Qed.










(** On a number the tool does return the number as text. *)
Example calculator_integer_literal :
  Toolbox.calculator Toolbox.eval_literals_only repr_ascii "42" tt
  = (Ok "42", tt).
Proof. vm_compute. reflexivity. Qed.

(** * Further properties of the code *)

(** ** The synthesis collaborator's attributes *)

Lemma dict_mem_true (language : string) :
  dict_mem TTS.language_config language = true ->
  language ∈ dict_keys TTS.language_config.
Proof.
  unfold dict_mem. induction (dict_keys TTS.language_config) as [|k ks IH];
    simpl; [done|].
  destruct (String.eqb_spec language k) as [->|Hk]; simpl.
  - intros _. left.
  - intros H. right. by apply IH.
Qed.

Lemma tts_config_consistent (language : string) self rate :
  language ∈ dict_keys TTS.language_config ->
  exists self',
    TTS.update_language language rate self = (Ok tt, self')
    /\ TTS.language_code self' = language
    /\ tts_consistent self'
    /\ TTS.speaking_rate self' = default 0.75%Q rate.
Proof.
  intros H. destruct (tts_supported_cases _ H) as [->|[->| ->]];
    destruct rate as [r|]; (eexists; split; [reflexivity|]);
    (split; [reflexivity|]); (split; [|reflexivity]);
    unfold tts_consistent; cbn;
    (split; [is_member|]); (split; [reflexivity|]);
    (split; [eexists; split; [reflexivity|split; reflexivity]|]); done.
Qed.

(** Every way of building or changing a synthesis instance leaves its
    derived attributes in agreement with the primary ones, and its active
    identifier inside the table: [__init__] when it succeeds,
    [update_language] from any instance and with any argument (it never
    raises), and [update_speaking_rate] from an instance that agrees. *)
Theorem tts_attributes_stay_consistent :
  (forall ext language aenc hz dir rate self,
      TTS.__init__ ext language aenc hz dir rate = Ok self ->
      tts_consistent self /\ TTS.language_code self = language)
  /\ (forall language rate self,
        exists self',
          TTS.update_language language rate self = (Ok tt, self')
          /\ tts_consistent self')
  /\ (forall r self,
        tts_consistent self ->
        exists self',
          TTS.update_speaking_rate r self = (Ok tt, self')
          /\ tts_consistent self'
          /\ TTS.speaking_rate self' = r
          /\ TTS.language_code self' = TTS.language_code self).
Proof.
  split; [|split].
  - intros ext language aenc hz dir rate self.
    unfold TTS.__init__.
    destruct (TTS.TextToSpeechClient ext) as [[]|e]; simpl; [|done].
    unfold subscript.
    destruct (dict_get TTS.language_config language) as [c|] eqn:Hc;
      [|destruct rate; simpl; [destruct (TTS.makedirs ext dir)|]; done].
    assert (Hin : language ∈ dict_keys TTS.language_config).
    { destruct (decide (language ∈ dict_keys TTS.language_config)) as [|Hn];
        [done|]. by rewrite (dict_get_None _ _ Hn) in Hc. }
    unfold TTS.new_audio_config.
    destruct rate as [r|]; simpl;
      (destruct (TTS.makedirs ext dir) as [[]|e]; simpl; [|done]);
      (destruct ((-2147483648 <=? hz) && (hz <=? 2147483647))%Z; simpl;
         [|done]);
      intros [= <-]; (split; [|done]); unfold tts_consistent; cbn;
      (split; [done|]); (split; [done|]); (split; [eauto|]); done.
  - intros language rate self.
    destruct (dict_mem TTS.language_config language) eqn:Hm.
    + destruct (tts_config_consistent language self rate (dict_mem_true _ Hm))
        as (self' & Hrun & _ & Hc & _). eauto.
    + destruct (tts_config_consistent "en-IN" self rate) as (self' & Hrun & _ & Hc & _);
        [is_member|].
      exists self'. split; [|done].
      unfold TTS.update_language in *. rewrite Hm. simpl. exact Hrun.
  - intros r self (Hin & Hv & Hc & _).
    eexists. split; [reflexivity|]. unfold tts_consistent. cbn. done.
Qed.

Lemma tts_attributes_stay_consistent_witness :
  exists self self',
    TTS.default TTS.ext_ok = Ok self
    /\ tts_consistent self
    /\ TTS.update_speaking_rate 1.5%Q self = (Ok tt, self')
    /\ tts_consistent self'
    /\ TTS.speaking_rate self' = 1.5%Q.
Proof.
  destruct tts_attributes_stay_consistent as (Hinit & _ & Hrate).
  eexists. 
  assert (Hd : TTS.default TTS.ext_ok = Ok _) by reflexivity.
  destruct (Hinit TTS.ext_ok "en-IN" TTS.MP3 24000%Z ".cache" None _ Hd)
    as [Hc _].
  destruct (Hrate 1.5%Q _ Hc) as (self' & Hrun & Hc' & Hr & _).
  exists self'. split; [exact Hd|]. split; [exact Hc|].
  split; [exact Hrun|]. split; [exact Hc'|exact Hr].
Defined.

(** A language update that is given no rate puts the speaking rate back
    to the table's 0.75, in the instance and in its audio configuration,
    whatever rate [update_speaking_rate] had set before; one that is given
    a rate stores that rate. *)
Theorem update_language_resets_speaking_rate :
  forall (r : Q) (language : string) (self : TTS.RubyTTS),
    TTS.speaking_rate (TTS.update_speaking_rate r self).2 = r
    /\ TTS.speaking_rate
         (TTS.update_language language None
            (TTS.update_speaking_rate r self).2).2 = 0.75%Q
    /\ TTS.cfg_speaking_rate
         (TTS.audio_config
            (TTS.update_language language None
               (TTS.update_speaking_rate r self).2).2) = 0.75%Q
    /\ forall r', TTS.speaking_rate
                    (TTS.update_language language (Some r') self).2 = r'.
Proof.
  intros r language self. split; [reflexivity|].
  assert (Hgen : forall rate self0,
             exists self',
               TTS.update_language language rate self0 = (Ok tt, self')
               /\ tts_consistent self'
               /\ TTS.speaking_rate self' = default 0.75%Q rate).
  { intros rate self0. destruct (dict_mem TTS.language_config language) eqn:Hm.
    - destruct (tts_config_consistent language self0 rate (dict_mem_true _ Hm))
        as (self' & Hrun & _ & Hc & Hr). eauto.
    - destruct (tts_config_consistent "en-IN" self0 rate)
        as (self' & Hrun & _ & Hc & Hr); [is_member|].
      exists self'. split; [|done].
      unfold TTS.update_language in *. rewrite Hm. simpl. exact Hrun. }
  destruct (Hgen None (TTS.update_speaking_rate r self).2)
    as (self' & -> & (_ & _ & _ & Hcfg & _) & Hr).
  cbn [snd]. rewrite Hcfg, Hr. split; [done|]. split; [done|].
  intros r'. destruct (Hgen (Some r') self) as (self'' & Hrun & _ & Hr'').
  rewrite Hrun. exact Hr''.
Qed.

(** ** The tools of the agent *)

Lemma dict_mem_false (language : string) :
  dict_mem TTS.language_config language = false ->
  language ∉ dict_keys TTS.language_config.
Proof.
  intros Hm Hin. destruct (dict_get_Some _ _ Hin) as [c Hc].
  revert Hm Hc. unfold dict_mem.
  induction TTS.language_config as [|[k v] d IH]; simpl; [done|].
  rewrite String.eqb_sym.
  destruct (String.eqb_spec k language) as [->|Hk]; simpl; [done|].
  apply elem_of_cons in Hin as [->|Hin]; [done|]. by apply IH.
Qed.

(** The capture client cannot be rebuilt: the exception leaves the switch
    tool, the phase stays "switching_language", and yet both collaborators
    have already taken the new identifier, the synthesis side its
    effective one ("en-IN" for an identifier outside the table) and the
    capture side the identifier as given, in its recognition
    configuration as well. *)
Theorem switch_language_client_failure :
  forall (language : string) (stt_ext : STT.Externals) (s : Sys) (e : exc),
    STT.SpeechClient stt_ext = Raise e ->
    exists s',
      SwitchLanguageTool_run stt_ext language s = (Raise e, s')
      /\ phase s' = "switching_language"
      /\ TTS.get_current_language (tts (ruby s'))
         = (if dict_mem TTS.language_config language
            then language else "en-IN")
      /\ STT.language_code (stt (ruby s')) = language
      /\ STT.rc_language_code (STT.recognition_config (stt (ruby s')))
         = language
      /\ calls s' = calls s ++ [CallTtsUpdateLanguage language;
                                CallSttUpdateLanguage language]
      /\ history s' = history s.
Proof.
  intros language stt_ext s e Hcl.
  assert (Htts : exists tts',
             TTS.update_language language None (tts (ruby s)) = (Ok tt, tts')
             /\ TTS.get_current_language tts'
                = (if dict_mem TTS.language_config language
                   then language else "en-IN")).
  { destruct (dict_mem TTS.language_config language) eqn:Hm.
    - apply tts_update_supported. by apply dict_mem_true.
    - apply tts_update_unsupported. by apply dict_mem_false. }
  destruct Htts as (tts' & Hupd & Hlang).
  unfold SwitchLanguageTool_run, on_tts, on_stt, STT.update_language,
    zoom, bind, modify, record, get, lift, ret.
  cbn -[TTS.update_language]. rewrite Hupd.
  cbn. rewrite Hcl. cbn.
  eexists. split; [reflexivity|]. unfold phase, history. cbn.
  rewrite <- app_assoc. done.
Qed.

Lemma switch_language_client_failure_witness :
  exists s0,
    boot "You are Ruby." = Ok s0
    /\ exists s',
         SwitchLanguageTool_run stt_client_down "ml-IN" s0
         = (Raise (ExternalError "DefaultCredentialsError" "no credentials"),
            s')
         /\ phase s' = "switching_language"
         /\ TTS.get_current_language (tts (ruby s')) = "ml-IN"
         /\ STT.language_code (stt (ruby s')) = "ml-IN".
Proof.
  eexists. split; [vm_compute; reflexivity|].
  match goal with
  | |- exists s', SwitchLanguageTool_run _ _ ?s = _ /\ _ =>
      destruct (switch_language_client_failure "ml-IN" stt_client_down s
                  _ eq_refl)
        as (s' & Hrun & Hp & Ht & Hs & _)
  end.
  exists s'. repeat split; assumption.
Defined.

(** The video tool. When the search finds a video and the player starts,
    the tool reports "Finished playing: <title>", has called the search
    and then the player, holds no process any more, and leaves the phase
    at "Playing Video": that value is written only once the playback is
    over, and nothing puts the phase back to idle.  When the search
    fails, or the player cannot be started, the exception leaves the tool
    with the phase at "Searching Video"; after a failed search the player
    has not been called.  The history is never touched. *)
Theorem video_tool_outcomes :
  forall (vext : VideoExternals) (query : string) (s : Sys),
    (forall title url,
        extract_info vext query = Ok (title, url) ->
        player vext url = Ok tt ->
        exists s',
          YouTubeVideoPlayerTool_run vext query s
            = (Ok ("Finished playing: " +:+ title), s')
          /\ phase s' = "Playing Video"
          /\ current_video_process (ruby s') = None
          /\ calls s' = calls s ++ [CallExtractInfo query; CallPlayer url]
          /\ history s' = history s)
    /\ (forall e,
          extract_info vext query = Raise e ->
          exists s',
            YouTubeVideoPlayerTool_run vext query s = (Raise e, s')
            /\ phase s' = "Searching Video"
            /\ calls s' = calls s ++ [CallExtractInfo query]
            /\ current_video_process (ruby s')
               = current_video_process (ruby s)
            /\ history s' = history s)
    /\ (forall title url e,
          extract_info vext query = Ok (title, url) ->
          player vext url = Raise e ->
          exists s',
            YouTubeVideoPlayerTool_run vext query s = (Raise e, s')
            /\ phase s' = "Searching Video"
            /\ current_video_process (ruby s')
               = current_video_process (ruby s)
            /\ history s' = history s).
Proof.
  intros vext query s.
  split; [|split].
  - intros title url Hx Hp.
    unfold YouTubeVideoPlayerTool_run, bind, modify, record, lift, ret.
    cbn. rewrite Hx. cbn. rewrite Hp. cbn.
    eexists. split; [reflexivity|]. unfold phase, history. cbn.
    by rewrite <- app_assoc.
  - intros e Hx.
    unfold YouTubeVideoPlayerTool_run, bind, modify, record, lift, ret.
    cbn. rewrite Hx. cbn. eexists. split; [reflexivity|]. done.
  - intros title url e Hx Hp.
    unfold YouTubeVideoPlayerTool_run, bind, modify, record, lift, ret.
    cbn. rewrite Hx. cbn. rewrite Hp. cbn.
    eexists. split; [reflexivity|]. done.
Qed.

Lemma video_tool_outcomes_witness :
  exists s0,
    boot "You are Ruby." = Ok s0
    /\ (exists s',
           YouTubeVideoPlayerTool_run
             (video_found "Photosynthesis" "https://youtu.be/x") "plants" s0
           = (Ok "Finished playing: Photosynthesis", s')
           /\ phase s' = "Playing Video"
           /\ current_video_process (ruby s') = None)
    /\ (exists s',
           YouTubeVideoPlayerTool_run video_missing "plants" s0
           = (Raise (IndexError "list index out of range"), s')
           /\ phase s' = "Searching Video"
           /\ calls s' = [CallExtractInfo "plants"]).
Proof.
  eexists. split; [vm_compute; reflexivity|]. split.
  - match goal with
    | |- exists s', YouTubeVideoPlayerTool_run ?v ?q ?s = _ /\ _ =>
        destruct (proj1 (video_tool_outcomes v q s)
                    "Photosynthesis" "https://youtu.be/x" eq_refl eq_refl)
          as (s' & Hrun & Hp & Hc & _)
    end.
    exists s'. repeat split; assumption.
  - match goal with
    | |- exists s', YouTubeVideoPlayerTool_run ?v ?q ?s = _ /\ _ =>
        destruct (proj1 (proj2 (video_tool_outcomes v q s)) _ eq_refl)
          as (s' & Hrun & Hp & Hc & _)
    end.
    exists s'. repeat split; assumption.
Defined.

(** ** What a pass of the loop leaves alone *)

















(** ** The two loops *)







(** A click in the display. While the phase is "Speaking" it stops the
    synthesis collaborator and writes "Idel", which the display shows as
    Idle; in every other phase it changes nothing at all.  A second click
    right after the first is therefore without effect, and the history is
    never touched. *)
Theorem stop_speaking_click :
  forall (s : Sys),
    (phase s = "Speaking" ->
       exists s',
         on_mouse_button_down s = (Ok tt, s')
         /\ phase s' = "Idel"
         /\ status_text (phase s') = "Idle"
         /\ calls s' = calls s ++ [Print "🛑 Stopping TTS"; CallTtsStop]
         /\ history s' = history s)
    /\ (phase s <> "Speaking" -> on_mouse_button_down s = (Ok tt, s))
    /\ on_mouse_button_down (on_mouse_button_down s).2
       = (Ok tt, (on_mouse_button_down s).2).
Proof.
  intros s.
  assert (Hidle : forall s0, phase s0 <> "Speaking" ->
                             on_mouse_button_down s0 = (Ok tt, s0)).
  { intros s0 Hp. unfold on_mouse_button_down, bind, get.
    destruct (String.eqb_spec (phase s0) "Speaking") as [Heq|_]; done. }
  assert (Hstop : phase s = "Speaking" ->
            exists s',
              on_mouse_button_down s = (Ok tt, s')
              /\ phase s' = "Idel"
              /\ status_text (phase s') = "Idle"
              /\ calls s' = calls s ++ [Print "🛑 Stopping TTS"; CallTtsStop]
              /\ history s' = history s).
  { intros Hp. unfold on_mouse_button_down, bind, get, record, modify.
    rewrite Hp. cbn. eexists. split; [reflexivity|].
    unfold phase, history. cbn. by rewrite <- app_assoc. }
  split; [exact Hstop|]. split; [apply Hidle|].
  destruct (decide (phase s = "Speaking")) as [Hp|Hp].
  - destruct (Hstop Hp) as (s' & -> & Hp' & _). cbn.
    apply Hidle. by rewrite Hp'.
  - rewrite (Hidle s Hp). cbn. by apply Hidle.
Qed.

Lemma stop_speaking_click_witness :
  exists s0,
    boot "You are Ruby." = Ok s0
    /\ (exists s',
           on_mouse_button_down (set_ruby_state "Speaking" s0) = (Ok tt, s')
           /\ phase s' = "Idel"
           /\ calls s' = [Print "🛑 Stopping TTS"; CallTtsStop])
    /\ on_mouse_button_down (set_ruby_state "Thinking" s0)
       = (Ok tt, set_ruby_state "Thinking" s0).
Proof.
  eexists. split; [vm_compute; reflexivity|]. split.
  - match goal with
    | |- exists s', on_mouse_button_down ?s = _ /\ _ =>
        destruct (proj1 (stop_speaking_click s) eq_refl)
          as (s' & Hrun & Hp & _ & Hc & _)
    end.
    exists s'. repeat split; assumption.
  - match goal with
    | |- on_mouse_button_down ?s = _ =>
        apply (proj1 (proj2 (stop_speaking_click s)))
    end.
    discriminate.
Defined.

(** ** The order of a pass *)









(** ** A language switch inside a pass *)




(** ** The loop of [listen] *)

Lemma listen_responses_skip (pre rest : list STT.Response) :
  forallb not_final pre = true ->
  STT.listen_responses (pre ++ rest) = STT.listen_responses rest.
Proof.
  induction pre as [|r pre IH]; simpl; [done|].
  intros [Hr Hpre]%andb_prop. unfold not_final in Hr.
  destruct (STT.results r) as [|res others]; [by apply IH|].
  destruct (STT.is_final res); [done|]. by apply IH.
Qed.

(** [listen] gives the first alternative of the first response whose
    first result is final.  Responses before it that have no result, or
    whose first result is interim, are passed over; what the stream holds
    after it, and the other alternatives, play no part.  A final result
    without any alternative is an index error. *)
Theorem listen_returns_first_final_transcript :
  forall (pre post : list STT.Response) (r : STT.Response)
         (res : STT.Result) (others : list STT.Result),
    forallb not_final pre = true ->
    STT.results r = res :: others ->
    STT.is_final res = true ->
    (forall a alts,
        STT.alternatives res = a :: alts ->
        STT.listen_responses (pre ++ r :: post) = Ok (STT.transcript a))
    /\ (STT.alternatives res = [] ->
        STT.listen_responses (pre ++ r :: post)
        = Raise (IndexError "list index out of range")).
Proof.
  intros pre post r res others Hpre Hres Hfinal.
  rewrite (listen_responses_skip pre (r :: post) Hpre). simpl.
  rewrite Hres, Hfinal. split.
  - by intros a alts ->.
  - by intros ->.
Qed.

Lemma listen_returns_first_final_transcript_witness :
  forallb not_final (take 2 stream_with_final) = true
  /\ STT.listen_responses stream_with_final = Ok "what is gravity".
Proof.
  split; [reflexivity|].
  exact (proj1 (listen_returns_first_final_transcript
                  (take 2 stream_with_final) (drop 3 stream_with_final)
                  {| STT.results :=
                       [ {| STT.is_final := true;
                            STT.alternatives :=
                              [ {| STT.transcript := "what is gravity" |};
                                {| STT.transcript := "what is cavity" |} ] |} ] |}
                  _ [] eq_refl eq_refl eq_refl) _ _ eq_refl).
Defined.

(** A stream that ends without a response whose first result is final
    makes [listen] return the empty text, also when a later result of a
    response is final; the worker then neither calls the reasoning
    collaborator nor changes the history, and the phase stays
    "Listening". *)
Theorem stream_without_final_is_silence :
  forall (responses : list STT.Response) (env : CycleEnv) (s : Sys),
    forallb not_final responses = true ->
    stt_ext env = STT.ext_of_responses responses ->
    STT.listen_responses responses = Ok EmptyString
    /\ exists s',
         worker_iteration env s = (Ok tt, s')
         /\ history s' = history s
         /\ phase s' = "Listening"
         /\ calls s' = calls s ++ [CallListen; Print "User: "].
Proof.
  intros responses env s Hall Hext.
  assert (Hl : STT.listen_responses responses = Ok EmptyString).
  { rewrite <- (app_nil_r responses).
    by rewrite (listen_responses_skip responses [] Hall). }
  split; [done|].
  assert (Hh : heard env = Ok EmptyString)
    by (unfold heard; by rewrite Hext).
  destruct (worker_silence env s EmptyString Hh eq_refl)
    as (s' & Hw & Hhist & Hp & Hc).
  by exists s'.
Qed.

Lemma stream_without_final_is_silence_witness :
  exists s0 s',
    boot "You are Ruby." = Ok s0
    /\ forallb not_final stream_without_final = true
    /\ worker_iteration
         {| stt_ext := STT.ext_of_responses stream_without_final;
            tts_ext := TTS.ext_ok; tool_calls := [];
            reply := Ok [AIMessage "unused"];
            py_unicode_repr := repr_ascii |} s0 = (Ok tt, s')
    /\ history s' = [SystemMessage "You are Ruby."]
    /\ phase s' = "Listening".
Proof.
  eexists.
  assert (Hb : boot "You are Ruby." = Ok _) by (vm_compute; reflexivity).
  match type of Hb with
  | _ = Ok ?s =>
      destruct (stream_without_final_is_silence stream_without_final
                  {| stt_ext := STT.ext_of_responses stream_without_final;
                     tts_ext := TTS.ext_ok; tool_calls := [];
                     reply := Ok [AIMessage "unused"];
                     py_unicode_repr := repr_ascii |} s eq_refl eq_refl)
        as (_ & s' & Hw & Hh & Hp & _)
  end.
  exists s'. split; [exact Hb|]. split; [reflexivity|].
  split; [exact Hw|]. split; [exact Hh|exact Hp].
Defined.

(** ** Ingestion and the disk *)

(** A successful ingestion leaves on the disk, at the store's location,
    exactly the index the store holds in memory, which exists from then
    on; every other location of the disk and the parameters of the store
    are as they were. *)
Theorem ingestion_persists_the_store :
  forall (ext : RAG.Externals) (file : string)
         (st st' : RAG.RubyRAG) (disk disk' : RAG.Disk),
    RAG.add_documents ext file (st, disk) = (Ok tt, (st', disk')) ->
    is_Some (RAG.vectorstore st')
    /\ disk' !! RAG.db_path st = RAG.vectorstore st'
    /\ (forall path, path <> RAG.db_path st -> disk' !! path = disk !! path)
    /\ RAG.db_path st' = RAG.db_path st
    /\ RAG.chunk_size st' = RAG.chunk_size st
    /\ RAG.chunk_overlap st' = RAG.chunk_overlap st
    /\ RAG.embedding_model st' = RAG.embedding_model st.
Proof.
  intros ext file st st' disk disk'.
  unfold RAG.add_documents, RAG.try_save_local, RAG.save_local, zoom,
    bind, get, lift, modify, raise. cbn.
  destruct (RAG._load_documents ext st file) as [docs|e]; [|done].
  destruct (RAG.vectorstore st) as [vs|] eqn:Hvs.
  - destruct (RAG.FAISS_add_documents ext vs docs) as [[[]|e] vs']; cbn;
      [|done].
    destruct (RAG.save_local_fault ext vs' (RAG.db_path st) disk)
      as [[e left_behind]|]; cbn; [done|].
    intros [= <- <-]. cbn. split; [eauto|].
    split; [apply lookup_insert_eq|]. split; [|done].
    intros path Hne. by rewrite lookup_insert_ne.
  - cbn. destruct (RAG.FAISS_from_documents ext docs) as [vs|e]; cbn; [|done].
    destruct (RAG.save_local_fault ext vs (RAG.db_path st) disk)
      as [[e left_behind]|]; cbn; [done|].
    intros [= <- <-]. cbn. split; [eauto|].
    split; [apply lookup_insert_eq|]. split; [|done].
    intros path Hne. by rewrite lookup_insert_ne.
Qed.

Lemma ingestion_persists_the_store_witness :
  exists st0 st' disk',
    RAG.open_at RAG.ext_plain ∅ "test_rag_db" = Ok st0
    /\ RAG.add_documents RAG.ext_plain "a.txt" (st0, ∅) = (Ok tt, (st', disk'))
    /\ disk' !! "test_rag_db" = RAG.vectorstore st'
    /\ RAG.vectorstore st'
       = Some [ {| RAG.page_content := "a.txt"; RAG.source := "a.txt" |} ].
Proof.
  eexists.
  assert (Hinit : RAG.open_at RAG.ext_plain ∅ "test_rag_db" = Ok _)
    by reflexivity.
  do 2 eexists. split; [exact Hinit|].
  assert (Hadd : RAG.add_documents RAG.ext_plain "a.txt"
                   ({| RAG.db_path := "test_rag_db";
                       RAG.embedding_model := "text-embedding-3-small";
                       RAG.chunk_size := 600; RAG.chunk_overlap := 80;
                       RAG.vectorstore := None |}, ∅)
                 = (Ok tt,
                    (RAG.set_vectorstore
                       (Some [ {| RAG.page_content := "a.txt";
                                  RAG.source := "a.txt" |} ])
                       {| RAG.db_path := "test_rag_db";
                          RAG.embedding_model := "text-embedding-3-small";
                          RAG.chunk_size := 600; RAG.chunk_overlap := 80;
                          RAG.vectorstore := None |},
                     <["test_rag_db" :=
                         [ {| RAG.page_content := "a.txt";
                              RAG.source := "a.txt" |} ]]> ∅)))
    by reflexivity.
  split; [exact Hadd|].
  split; [exact (proj1 (proj2 (ingestion_persists_the_store _ _ _ _ _ _ Hadd)))|].
  reflexivity.
Defined.



(** ** The context block of a query *)

Lemma string_app_assoc (a b c : string) : (a +:+ b) +:+ c = a +:+ (b +:+ c).
Proof.
  induction a as [|x a IH]; [done|].
  change (String x ((a +:+ b) +:+ c) = String x (a +:+ (b +:+ c))).
  by rewrite IH.
Qed.

Lemma string_app_nil_r (p : string) : p +:+ EmptyString = p.
Proof.
  induction p as [|x p IH]; [done|].
  change (String x (p +:+ EmptyString) = String x p). by rewrite IH.
Qed.

Lemma concat_holds_each_piece (sep : string) (pieces : list string) :
  forall i p, pieces !! i = Some p ->
    exists before after, String.concat sep pieces = before +:+ p +:+ after.
Proof.
  induction pieces as [|x [|y rest] IH]; intros i p Hi.
  - done.
  - destruct i; [|done]. injection Hi as ->.
    exists EmptyString, EmptyString.
    change (p = p +:+ EmptyString). by rewrite string_app_nil_r.
  - destruct i as [|i].
    + injection Hi as ->.
      exists EmptyString, (sep +:+ String.concat sep (y :: rest)). done.
    + destruct (IH i p Hi) as (before & after & Heq).
      exists (x +:+ sep +:+ before), after.
      change (String.concat sep (x :: y :: rest))
        with (x +:+ sep +:+ String.concat sep (y :: rest)).
      by rewrite Heq, !string_app_assoc.
Qed.

(** A query on a store with an index only formats: every chunk the
    search returns appears verbatim in the answer, under the label
    "[Context i]" of its rank [i] counted from 1, and a search that
    returns no chunk gives the empty text, which is an answer and not the
    error of the missing index; an error of the search is passed on. *)
Theorem query_labels_every_chunk :
  forall (ext : RAG.Externals) (self : RAG.RubyRAG) (vs : list RAG.Document)
         (q : string) (k : nat),
    RAG.vectorstore self = Some vs ->
    (forall docs,
        RAG.similarity_search ext vs q k = Ok docs ->
        exists block,
          RAG.query ext self q k = Ok block
          /\ (docs = [] -> block = EmptyString)
          /\ forall i doc,
               docs !! i = Some doc ->
               exists before after,
                 block = before
                         +:+ ("[Context " +:+ pretty (S i) +:+ "]" +:+ RAG.nl
                              +:+ RAG.page_content doc)
                         +:+ after)
    /\ (forall e,
          RAG.similarity_search ext vs q k = Raise e ->
          RAG.query ext self q k = Raise e).
Proof.
  intros ext self vs q k Hvs. unfold RAG.query. rewrite Hvs. split.
  - intros docs Hs. rewrite Hs. simpl. eexists. split; [reflexivity|].
    split; [by intros ->|].
    intros i doc Hi. apply concat_holds_each_piece with (i := i).
    rewrite list_lookup_imap, Hi. done.
  - intros e Hs. by rewrite Hs.
Qed.

Lemma query_labels_every_chunk_witness :
  RAG.query RAG.ext_plain
    {| RAG.db_path := "ruby_rag/db";
       RAG.embedding_model := "text-embedding-3-small";
       RAG.chunk_size := 600; RAG.chunk_overlap := 80;
       RAG.vectorstore :=
         Some [ {| RAG.page_content := "Ruby is a robot.";
                   RAG.source := "a.txt" |};
                {| RAG.page_content := "Ruby speaks Tamil.";
                   RAG.source := "a.txt" |} ] |}
    "Which languages?" 3
  = Ok ("[Context 1]" +:+ RAG.nl +:+ "Ruby is a robot."
        +:+ RAG.nl +:+ RAG.nl +:+ "---" +:+ RAG.nl +:+ RAG.nl
        +:+ "[Context 2]" +:+ RAG.nl +:+ "Ruby speaks Tamil.").
Proof.
  destruct (proj1 (query_labels_every_chunk RAG.ext_plain
                     {| RAG.db_path := "ruby_rag/db";
                        RAG.embedding_model := "text-embedding-3-small";
                        RAG.chunk_size := 600; RAG.chunk_overlap := 80;
                        RAG.vectorstore :=
                          Some [ {| RAG.page_content := "Ruby is a robot.";
                                    RAG.source := "a.txt" |};
                                 {| RAG.page_content := "Ruby speaks Tamil.";
                                    RAG.source := "a.txt" |} ] |}
                     _ "Which languages?" 3 eq_refl) _ eq_refl)
    as (block & Hq & _).
  vm_compute. reflexivity.
Defined.

(** ** The serial bridge *)



